(** * 03_BuildModel: an LSTM mortality predictor and its ROC comparison

    A shallow embedding of the notebook [03_BuildModel.ipynb].  The notebook
    is a straight sequence of library calls (NumPy, Keras, scikit-learn,
    pandas, matplotlib); it is embedded as a computation in a state and
    exception monad over a world made of the file system, the source of
    randomness, the matplotlib figures and the log of the calls made.

    Array elements are 64-bit integers, which wrap around, or floating point
    numbers.  A floating point number is NaN, an infinity or a real number:
    the special values behave as in IEEE 754, and finite values are exact, so
    the rounding of finite results and their overflow are outside the model. *)

From Stdlib Require Import Reals Lra Lia ZArith List.
From stdpp Require Import base option list strings gmap pretty.

(** ** Python exceptions *)

Inductive exn :=
| FileNotFoundError (path : string)
| ValueError (msg : string)
| IndexError
| KeyError (key : string)
| LibraryError (msg : string).

(** ** Numbers *)

(** A float: NaN, an infinity, or a finite value, given as the real number it
    stands for. *)
Inductive float := NaN | Infinite (negative : bool) | Real (x : R).

(** An element of an array or of a column: an [int64] or a float. *)
Inductive scalar := Int64 (z : Z) | Float (x : float).

Definition real (x : R) : scalar := Float (Real x).

Definition zero : scalar := real 0%R.

Definition is_negative (x : R) : bool := if Rlt_dec x 0%R then true else false.

Definition is_zero (x : R) : bool := if Req_dec_T x 0%R then true else false.

(** [-x] *)
Definition fopp (x : float) : float :=
  match x with
  | NaN => NaN
  | Infinite s => Infinite (negb s)
  | Real a => Real (- a)%R
  end.

(** [x + y]: infinities of opposite signs add up to NaN. *)
Definition fadd (x y : float) : float :=
  match x, y with
  | NaN, _ | _, NaN => NaN
  | Infinite s, Infinite s' => if Bool.eqb s s' then Infinite s else NaN
  | Infinite s, Real _ | Real _, Infinite s => Infinite s
  | Real a, Real b => Real (a + b)%R
  end.

(** [x * y]: zero times an infinity is NaN. *)
Definition fmul (x y : float) : float :=
  match x, y with
  | NaN, _ | _, NaN => NaN
  | Infinite s, Infinite s' => Infinite (xorb s s')
  | Infinite s, Real a | Real a, Infinite s =>
      if is_zero a then NaN else Infinite (xorb s (is_negative a))
  | Real a, Real b => Real (a * b)%R
  end.

(** [x == y]: NaN equals nothing, itself included. *)
Definition feqb (x y : float) : bool :=
  match x, y with
  | Infinite s, Infinite s' => Bool.eqb s s'
  | Real a, Real b => if Req_dec_T a b then true else false
  | _, _ => false
  end.


(** The value of a scalar as a float. *)
Definition to_float (s : scalar) : float :=
  match s with
  | Int64 z => Real (IZR z)
  | Float x => x
  end.


Definition int64_min : Z := (- 2 ^ 63)%Z.

(** The 64-bit two's complement integer congruent to [z]. *)
Definition wrap64 (z : Z) : Z := ((z + 2 ^ 63) mod 2 ^ 64 - 2 ^ 63)%Z.

(** [-s]: integer negation wraps around, so the least integer is its own
    negation. *)
Definition sopp (s : scalar) : scalar :=
  match s with
  | Int64 z => Int64 (wrap64 (- z))
  | Float x => Float (fopp x)
  end.

(** The integer nearest to [x], ties going to the even one. *)
Definition round_half_even (x : R) : Z :=
  let n := Int_part x in
  let d := (x - IZR n)%R in
  if Rlt_dec d (1 / 2)%R then n
  else if Rlt_dec (1 / 2)%R d then (n + 1)%Z
  else if Z.even n then n else (n + 1)%Z.

Definition digit (d : N) : Ascii.ascii :=
  Ascii.ascii_of_N (48 + d)%N.

(** The last [k] decimal digits of [n]. *)
Fixpoint fraction (k : nat) (n : N) : string :=
  match k with
  | 0 => EmptyString
  | S k' => fraction k' (n / 10)%N +:+ String (digit (n mod 10)%N) EmptyString
  end.

(** What the conversion [%.<precision>f] prints for [x]: [nan] and [inf] for
    the special values, and otherwise the sign, the integer part, and after
    the point the decimal expansion rounded to [precision] digits. *)
Definition format_fixed (precision : nat) (x : float) : string :=
  match x with
  | NaN => "nan"%string
  | Infinite s => if s then "-inf"%string else "inf"%string
  | Real a =>
      let q := Z.to_N (round_half_even (Rabs a * 10 ^ precision)%R) in
      let scale := (10 ^ N.of_nat precision)%N in
      (if is_negative a then "-" else "")%string
      +:+ pretty (q / scale)%N
      +:+ (match precision with
           | 0 => ""%string
           | S _ => "." +:+ fraction precision (q mod scale)%N
           end)
  end.





(** ** NumPy arrays *)

(** An array: its shape and its elements in row-major order. *)
Record ndarray := NdArray { nd_shape : list nat; nd_data : list scalar }.

Definition nd_size (s : list nat) : nat := fold_right Nat.mul 1 s.

Definition nd_wf (a : ndarray) : bool :=
  Nat.eqb (length (nd_data a)) (nd_size (nd_shape a)).

(** [a[i, j, k]] of the data [d] of an array of shape [(n, t, f)]. *)
Definition get3 (t f : nat) (d : list scalar) (i j k : nat) : scalar :=
  nth ((i * t + j) * f + k) d zero.

(** One component of a basic index: an integer or a slice [start:stop]. *)
Inductive index := Int (i : Z) | Slice (start stop : option Z).

Definition full : index := Slice None None.

(** An integer index on an axis of length [n]: negative values count from the
    end, anything outside [-n .. n-1] is an IndexError. *)
Definition norm_index (n : nat) (i : Z) : option nat :=
  if ((0 <=? i) && (i <? Z.of_nat n))%Z then Some (Z.to_nat i)
  else if ((- Z.of_nat n <=? i) && (i <? 0))%Z then Some (Z.to_nat (Z.of_nat n + i))
  else None.

(** A slice bound on an axis of length [n]: negative values count from the
    end and the result is clipped to [0 .. n]; a slice never raises. *)
Definition clamp (n : nat) (i : Z) : nat :=
  let j := if (i <? 0)%Z then (Z.of_nat n + i)%Z else i in
  Z.to_nat (Z.min (Z.max j 0) (Z.of_nat n)).

Definition slice_indices (n : nat) (start stop : option Z) : list nat :=
  let lo := from_option (clamp n) 0 start in
  let hi := from_option (clamp n) n stop in
  seq lo (hi - lo).

(** The shape of [a[idxs]] and the flat offsets of its elements in [a];
    missing trailing indices are full slices, too many are an error. *)
Fixpoint select (shape : list nat) (idxs : list index)
    : option (list nat * list nat) :=
  match shape with
  | [] => match idxs with [] => Some ([], [0]) | _ :: _ => None end
  | n :: s =>
      let stride := nd_size s in
      let rows (ks : list nat) (offs : list nat) :=
        flat_map (fun k => map (Nat.add (k * stride)) offs) ks in
      match idxs with
      | [] =>
          match select s [] with
          | Some (sh, offs) => Some (n :: sh, rows (seq 0 n) offs)
          | None => None
          end
      | Int i :: rest =>
          match norm_index n i, select s rest with
          | Some k, Some (sh, offs) => Some (sh, map (Nat.add (k * stride)) offs)
          | _, _ => None
          end
      | Slice start stop :: rest =>
          match select s rest with
          | Some (sh, offs) =>
              let ks := slice_indices n start stop in
              Some (length ks :: sh, rows ks offs)
          | None => None
          end
      end
  end.

(** [a[idxs]] *)
Definition getitem (a : ndarray) (idxs : list index) : exn + ndarray :=
  match select (nd_shape a) idxs with
  | Some (sh, offs) => inr (NdArray sh (map (fun o => nth o (nd_data a) zero) offs))
  | None => inl IndexError
  end.

(** [a.shape[axis]] *)
Definition shape_at (a : ndarray) (axis : Z) : exn + nat :=
  match norm_index (length (nd_shape a)) axis with
  | Some k => inr (nth k (nd_shape a) 0)
  | None => inl IndexError
  end.

(** [a.squeeze()]: the axes of length one are dropped. *)
Definition squeeze (a : ndarray) : ndarray :=
  NdArray (filter (fun n => n ≠ 1) (nd_shape a)) (nd_data a).

Fixpoint unravel (shape : list nat) (p : nat) : list nat :=
  match shape with
  | [] => []
  | _ :: s => (p / nd_size s) :: unravel s (p mod nd_size s)
  end.

Fixpoint ravel (shape : list nat) (mi : list nat) : nat :=
  match shape, mi with
  | _ :: s, i :: r => i * nd_size s + ravel s r
  | _, _ => 0
  end.

(** [np.transpose(a)]: the axes in reverse order. *)
Definition transpose (a : ndarray) : ndarray :=
  let s := nd_shape a in
  NdArray (rev s)
    (map (fun p => nth (ravel s (rev (unravel (rev s) p))) (nd_data a) zero)
       (seq 0 (nd_size s))).

(** ** Keras: layers and the forward pass at inference

    The notebook only names the layers; what they compute is the library's.
    The forward pass below follows the library's documentation: at inference
    dropout is off, [Masking] marks the timesteps whose features all equal the
    mask value, the LSTM skips the marked timesteps, and a time-distributed
    dense layer acts on every timestep alike.  The library computes in
    floats. *)

Module Keras.

#[local] Open Scope R_scope.

Definition sigmoid (x : float) : float :=
  match x with
  | NaN => NaN
  | Infinite true => Real 0
  | Infinite false => Real 1
  | Real a => Real (/ (1 + exp (- a)))
  end.

Definition tanh (x : float) : float :=
  match x with
  | NaN => NaN
  | Infinite true => Real (-1)
  | Infinite false => Real 1
  | Real a => Real (Rtrigo_def.tanh a)
  end.

Definition dot (xs ys : list float) : float :=
  fold_right fadd (Real 0) (zip_with fmul xs ys).

Inductive activation := Sigmoid | Tanh | Linear.

Definition activate (a : activation) (x : float) : float :=
  match a with
  | Sigmoid => sigmoid x
  | Tanh => tanh x
  | Linear => x
  end.

(** The keyword arguments of the recurrent layer. *)
Record lstm_kwargs_t := LstmKwargs {
  dropout : R;
  recurrent_dropout : R;
  return_sequences : bool;
  implementation : nat }.

Inductive layer :=
| InputLayer (shape : list (option nat)) (name : string)
| Masking (mask_value : R) (name : string)
| LSTM (units : nat) (kwargs : lstm_kwargs_t) (name : string)
| Dense (units : nat) (act : activation)
| TimeDistributed (inner : layer) (name : string).

(** The parameters of [Dense(units)]: for each unit its kernel column and
    its bias. *)
Record dense_weights := DenseW {
  d_kernel : nat -> list float;
  d_bias : nat -> float }.

Inductive gate := GI | GF | GC | GO.

(** The parameters of [LSTM(units)]: per gate and unit, the input kernel
    column, the recurrent kernel column and the bias. *)
Record lstm_weights := LstmW {
  l_kernel : gate -> nat -> list float;
  l_recurrent : gate -> nat -> list float;
  l_bias : gate -> nat -> float }.

(** The parameters of a network with one recurrent and one dense layer. *)
Record weights := Weights { w_lstm : lstm_weights; w_dense : dense_weights }.

(** [Dense(units, activation)] on one feature vector. *)
Definition dense (units : nat) (act : activation) (w : dense_weights)
    (x : list float) : list float :=
  map (fun j => activate act (fadd (dot x (d_kernel w j)) (d_bias w j)))
    (seq 0 units).

(** [Masking(mask_value)]: a timestep is kept when some feature differs
    from the mask value, as NaN does; a dropped timestep is zeroed. *)
Definition is_mask_value (v : R) (x : float) : bool := feqb x (Real v).

Definition unmasked (v : R) (x : list float) : bool :=
  negb (forallb (is_mask_value v) x).

Definition masking (v : R) (xs : list (list float))
    : list (list float) * list bool :=
  (map (fun x => if unmasked v x then x else map (fun _ => Real 0) x) xs,
   map (unmasked v) xs).

Definition lstm_pre (w : lstm_weights) (g : gate) (x h : list float) (j : nat)
    : float :=
  fadd (fadd (dot x (l_kernel w g j)) (dot h (l_recurrent w g j))) (l_bias w g j).

(** One step of the LSTM cell on the hidden state [h] and the carry [c]. *)
Definition lstm_cell (units : nat) (w : lstm_weights)
    (x : list float) (hc : list float * list float) : list float * list float :=
  let h := fst hc in
  let c := snd hc in
  let c' := map (fun j =>
              fadd (fmul (sigmoid (lstm_pre w GF x h j)) (nth j c (Real 0)))
                   (fmul (sigmoid (lstm_pre w GI x h j))
                         (tanh (lstm_pre w GC x h j))))
            (seq 0 units) in
  let h' := map (fun j => fmul (sigmoid (lstm_pre w GO x h j))
                               (tanh (nth j c' (Real 0))))
            (seq 0 units) in
  (h', c').

(** The recurrence with [return_sequences=True]: one output per timestep;
    a masked timestep repeats the previous output and keeps the state. *)
Fixpoint lstm_scan (units : nat) (w : lstm_weights)
    (hc : list float * list float) (prev : list float)
    (xs : list (list float)) (mask : list bool) : list (list float) :=
  match xs with
  | [] => []
  | x :: rest =>
      let keep := match mask with b :: _ => b | [] => true end in
      let hc' := if keep then lstm_cell units w x hc else hc in
      let out := if keep then fst hc' else prev in
      out :: lstm_scan units w hc' out rest (tail mask)
  end.

Definition zeros (n : nat) : list float := repeat (Real 0) n.

Definition lstm (units : nat) (w : lstm_weights)
    (xs : list (list float)) (mask : list bool) : list (list float) :=
  lstm_scan units w (zeros units, zeros units) (zeros units) xs mask.

(** A layer on one encounter: the sequence of feature vectors and the mask
    that travels with it.  Only the sequence-to-sequence layers are
    covered. *)
Definition forward_layer (w : weights) (l : layer)
    (st : list (list float) * list bool)
    : option (list (list float) * list bool) :=
  match l with
  | InputLayer _ _ => Some st
  | Masking v _ => Some (masking v (fst st))
  | LSTM units kw _ =>
      if return_sequences kw
      then Some (lstm units (w_lstm w) (fst st) (snd st), snd st)
      else None
  | Dense units act => Some (map (dense units act (w_dense w)) (fst st), snd st)
  | TimeDistributed (Dense units act) _ =>
      Some (map (dense units act (w_dense w)) (fst st), snd st)
  | TimeDistributed _ _ => None
  end.

Fixpoint forward_layers (w : weights) (ls : list layer)
    (st : list (list float) * list bool)
    : option (list (list float) * list bool) :=
  match ls with
  | [] => Some st
  | l :: rest =>
      match forward_layer w l st with
      | Some st' => forward_layers w rest st'
      | None => None
      end
  end.

Definition forward (w : weights) (ls : list layer) (xs : list (list float))
    : option (list (list float)) :=
  fst <$> forward_layers w ls (xs, repeat true (length xs)).

(** The width of the last axis after each layer. *)
Fixpoint layer_units (l : layer) (f : nat) : nat :=
  match l with
  | InputLayer _ _ | Masking _ _ => f
  | LSTM units _ _ | Dense units _ => units
  | TimeDistributed inner _ => layer_units inner f
  end.

Definition output_dim (ls : list layer) (f : nat) : nat :=
  fold_left (fun d l => layer_units l d) ls f.

(** The layers that carry parameters. *)
Fixpoint has_weights (l : layer) : bool :=
  match l with
  | InputLayer _ _ | Masking _ _ => false
  | LSTM _ _ _ | Dense _ _ => true
  | TimeDistributed inner _ => has_weights inner
  end.

Record optimizer_t := RMSprop { learning_rate : R }.

(** A symbolic tensor of the functional API: the chain of layers that
    produces it. *)
Definition tensor := list layer.

Record model_t := Model_ {
  m_layers : list layer;
  m_compiled : option (optimizer_t * string);
  m_weights : weights }.

Definition input_dim (ls : list layer) : option nat :=
  match ls with
  | InputLayer [_; Some f] _ :: _ => Some f
  | _ => None
  end.

(** The encounters of an array of shape [(n, t, f)], as floats. *)
Definition encounters (n t f : nat) (d : list scalar) : list (list (list float)) :=
  map (fun i =>
         map (fun j => map (fun k => to_float (get3 t f d i j k)) (seq 0 f))
           (seq 0 t))
    (seq 0 n).

(** An input is brought to the three axes of the model's input: a fourth
    axis of length one is dropped, and a missing third axis is added when
    the model has one feature. *)
Definition conform (features : nat) (x : ndarray) : option ndarray :=
  match nd_shape x with
  | [n; t; f] => Some x
  | [n; t; f; 1%nat] => Some (NdArray [n; t; f] (nd_data x))
  | [n; t] =>
      if decide (features = 1%nat) then Some (NdArray [n; t; 1%nat] (nd_data x))
      else None
  | _ => None
  end.

(** [model.predict(x)]: the forward pass on every encounter of [x].  An
    input that does not conform to a non-empty batch of non-empty sequences
    of the model's feature width is rejected: the result is [None]. *)
Definition predict (m : model_t) (x : ndarray) : option ndarray :=
  features ← input_dim (m_layers m);
  x' ← conform features x;
  match nd_shape x' with
  | [n; t; f] =>
      if decide ((0 < n)%nat /\ (0 < t)%nat /\ f = features) then
        yss ← mapM (forward (m_weights m) (m_layers m))
                (encounters n t f (nd_data x'));
        Some (NdArray [n; t; output_dim (m_layers m) f]
                (map Float (concat (concat yss))))
      else None
  | _ => None
  end.

End Keras.

(** ** pandas *)

(** A data frame of numeric columns: a column read from a CSV file holds
    [int64] values when every entry is an integer and floats otherwise. *)
Record dataframe := DataFrame { df_columns : gmap string (list scalar) }.

(** A column of a frame is a one-dimensional array. *)
Definition series (col : list scalar) : ndarray := NdArray [length col] col.

(** [-a], elementwise *)
Definition nd_neg (a : ndarray) : ndarray :=
  NdArray (nd_shape a) (map sopp (nd_data a)).

(** ** scikit-learn *)

(** The triple [roc_curve] returns. *)
Record roc := Roc {
  fpr : list scalar;
  tpr : list scalar;
  thresholds : list scalar }.

(** ** matplotlib *)

(** What is drawn on, or set for, one axes. *)
Inductive axes_op :=
| Pcolor (c : ndarray)
| Plot (args : list (list scalar)) (label color : option string)
       (linewidth alpha : option R)
| SetYlim (lo hi : R)
| SetXlim (lo hi : R)
| SetXlabel (s : string) (fontsize : option R)
| SetYlabel (s : string) (fontsize : option R)
| SetTitle (s : string) (fontsize : R)
| Legend (loc : string) (fontsize : R)
| SetXticks (ticks : list R) (fontsize : R)
| SetYticks (ticks : list R) (fontsize : R)
| Grid (alpha : R).

Record figure := Figure {
  fig_size : option (R * R);
  fig_axes : list (list axes_op);
  fig_tight : bool }.

(** An axes object: the figure it belongs to and its position there. *)
Definition axes_ref : Type := nat * nat.

Definition draw_at (ax : axes_ref) (op : axes_op) (figs : list figure)
    : list figure :=
  alter (fun fg => Figure (fig_size fg)
                     (alter (fun ops => ops ++ [op]) (snd ax) (fig_axes fg))
                     (fig_tight fg))
    (fst ax) figs.

(** pyplot's current figure and current axes: the last ones made, made on
    demand when there is none. *)
Definition gcf (figs : list figure) : list figure :=
  match figs with [] => [Figure None [] false] | _ => figs end.

Definition gca (fg : figure) : figure :=
  match fig_axes fg with
  | [] => Figure (fig_size fg) [[]] (fig_tight fg)
  | _ => fg
  end.

Definition with_current_axes (figs : list figure) : list figure :=
  let figs := gcf figs in
  alter gca (length figs - 1) figs.

Definition current_axes (figs : list figure) : axes_ref :=
  (length figs - 1,
   length (fig_axes (default (Figure None [] false) (last figs))) - 1).

Definition draw_current (op : axes_op) (figs : list figure) : list figure :=
  let figs := with_current_axes figs in
  draw_at (current_axes figs) op figs.



(** ** The world and the calls *)

Inductive file := NpyFile (a : ndarray) | CsvFile (df : dataframe).

Inductive call :=
| NpLoad (file : string)
| ShapeAt (a : ndarray) (axis : Z)
| GetItem (a : ndarray) (idxs : list index)
| KerasInput (shape : list (option nat)) (name : string)
| KerasApply (l : Keras.layer)
| KerasModel (layers : list Keras.layer)
| KerasCompile (optimizer : Keras.optimizer_t) (loss : string)
| KerasSummary
| KerasFit (x y : ndarray) (batch_size epochs verbose : Z)
| KerasPredict (x : ndarray)
| Display (shape : list nat)
| RandomRandint (a b : Z)
| PltSubplots (nrows ncols : nat)
| Unpack (n : nat)
| PltFigure (figsize : R * R)
| AxesCall (ax : axes_ref) (op : axes_op)
| PltCall (op : axes_op)
| PltTightLayout
| RocCurve (y_true y_score : ndarray)
| Auc (x y : list scalar)
| ReadCsv (path : string)
| FrameGetItem (key : string).

(** A call that was made, and the exception it raised if it did. *)
Record event := Event { ev_call : call; ev_raised : option exn }.

(** The world: the files on disk, the numbers that Python's [random] module
    will yield, in order, the figures made so far, and the calls made so
    far. *)
Record world := World {
  files : gmap string file;
  entropy : list nat;
  figures : list figure;
  trace : list event }.

Definition log (c : call) (e : option exn) (w : world) : world :=
  World (files w) (entropy w) (figures w) (trace w ++ [Event c e]).

Definition set_figures (figs : list figure) (w : world) : world :=
  World (files w) (entropy w) figs (trace w).

Definition set_entropy (en : list nat) (w : world) : world :=
  World (files w) en (figures w) (trace w).

(** What the embedding leaves to the libraries: how many numbers a Keras call
    takes for its own use from the stream of Python's [random] module, the
    initial parameters of a network, training, the exception [predict] raises
    for an input it rejects, and the ROC and AUC routines. *)
Record library := Library {
  lib_seeds : call -> nat;
  lib_initializer : list Keras.layer -> Keras.weights;
  lib_fit : Keras.model_t -> ndarray -> ndarray -> Z -> Z ->
            exn + (list float * Keras.weights);
  lib_predict_error : ndarray -> exn;
  lib_roc_curve : ndarray -> ndarray -> exn + roc;
  lib_auc : list scalar -> list scalar -> exn + float }.

(** The library [L] with the history that [fit] returns replaced by [g] of
    it. *)
Definition with_history (g : list float -> list float) (L : library) : library :=
  Library (lib_seeds L) (lib_initializer L)
    (fun m x y batch_size epochs =>
       match lib_fit L m x y batch_size epochs with
       | inr (history, ws) => inr (g history, ws)
       | inl e => inl e
       end)
    (lib_predict_error L) (lib_roc_curve L) (lib_auc L).

(** ** The monad: state and exceptions *)

Definition M (A : Type) : Type := world -> (exn + A) * world.

#[global] Instance M_ret : MRet M := fun A a w => (inr a, w).

#[global] Instance M_bind : MBind M := fun A B f m w =>
  match m w with
  | (inr a, w') => f a w'
  | (inl e, w') => (inl e, w')
  end.

(** A call: it acts on the world, returns or raises, and is logged. *)
Definition do_call {A} (c : call) (sem : world -> (exn + A) * world) : M A :=
  fun w =>
    match sem w with
    | (inr a, w') => (inr a, log c None w')
    | (inl e, w') => (inl e, log c (Some e) w')
    end.

Definition pure_call {A} (c : call) (r : exn + A) : M A :=
  do_call c (fun w => (r, w)).

Definition draw_call (c : call) (f : list figure -> list figure) : M unit :=
  do_call c (fun w => (inr tt, set_figures (f (figures w)) w)).

(** [fmt % x] for a format whose conversion is [%0.3f]: the conversion is
    replaced by [x] in fixed-point notation with three digits after the
    point. *)
Fixpoint percent (fmt : string) (x : float) : string :=
  match fmt with
  | EmptyString => EmptyString
  | String c rest =>
      if String.prefix "%0.3f" fmt
      then format_fixed 3 x +:+ String.substring 5 (String.length fmt - 5) fmt
      else String c (percent rest x)
  end.

(** ** The library calls of the notebook *)

Section Notebook.

Context (L : library).

#[local] Open Scope R_scope.

(** [np.load(path)] *)
Definition np_load (path : string) : M ndarray :=
  do_call (NpLoad path) (fun w =>
    (match files w !! path with
     | Some (NpyFile a) =>
         if nd_wf a then inr a else inl (ValueError "cannot reshape array")
     | Some (CsvFile _) => inl (ValueError "cannot load file as an array")
     | None => inl (FileNotFoundError path)
     end, w)).

(** [a.shape[axis]] *)
Definition shape (a : ndarray) (axis : Z) : M nat :=
  pure_call (ShapeAt a axis) (shape_at a axis).

(** [a[idxs]] *)
Definition item (a : ndarray) (idxs : list index) : M ndarray :=
  pure_call (GetItem a idxs) (getitem a idxs).

(** A call into Keras: the library seeds its random generators from
    Python's [random] module, the stream [random.randint] reads, so the
    call moves that stream on by the numbers it takes. *)
Definition keras_call {A} (c : call) (r : exn + A) : M A :=
  do_call c (fun w =>
    (r, set_entropy (drop (lib_seeds L c) (entropy w)) w)).

(** [Input(shape, name=...)] *)
Definition Input (shape : list (option nat)) (name : string) : M Keras.tensor :=
  keras_call (KerasInput shape name) (inr [Keras.InputLayer shape name]).

(** [layer(x)]: the layer is appended to the chain that makes [x]. *)
Definition apply (l : Keras.layer) (x : Keras.tensor) : M Keras.tensor :=
  keras_call (KerasApply l) (inr (x ++ [l])).

(** [Model(inputs=..., outputs=...)]: the layers from the input to the
    output, with freshly initialised parameters. *)
Definition Model (inputs outputs : Keras.tensor) : M Keras.model_t :=
  keras_call (KerasModel outputs)
    (inr (Keras.Model_ outputs None (lib_initializer L outputs))).

(** [model.compile(optimizer=..., loss=...)] *)
Definition compile (model : Keras.model_t) (optimizer : Keras.optimizer_t)
    (loss : string) : M Keras.model_t :=
  keras_call (KerasCompile optimizer loss)
    (inr (Keras.Model_ (Keras.m_layers model) (Some (optimizer, loss))
            (Keras.m_weights model))).

(** [model.summary()] *)
Definition summary (model : Keras.model_t) : M unit :=
  keras_call KerasSummary (inr tt).

(** [model.fit(x, y, batch_size=..., epochs=..., verbose=...)]: the history
    and the model with its parameters updated. *)
Definition fit (model : Keras.model_t) (x y : ndarray)
    (batch_size epochs verbose : Z) : M (list float * Keras.model_t) :=
  keras_call (KerasFit x y batch_size epochs verbose)
    (match lib_fit L model x y batch_size epochs with
     | inr (history, ws) =>
         inr (history,
              Keras.Model_ (Keras.m_layers model) (Keras.m_compiled model) ws)
     | inl e => inl e
     end).

(** [model.predict(x)] *)
Definition predict (model : Keras.model_t) (x : ndarray) : M ndarray :=
  keras_call (KerasPredict x)
    (match Keras.predict model x with
     | Some preds => inr preds
     | None => inl (lib_predict_error L x)
     end).

(** The value a cell ends with is displayed. *)
Definition display (shape : list nat) : M unit :=
  pure_call (Display shape) (inr tt).

(** [random.randint(a, b)]: both ends included. *)
Definition randint (a b : Z) : M Z :=
  do_call (RandomRandint a b) (fun w =>
    if (b <? a)%Z then (inl (ValueError "empty range for randrange()"), w)
    else (inr (a + Z.of_nat (hd 0%nat (entropy w)) mod (b - a + 1))%Z,
          set_entropy (tail (entropy w)) w)).

(** [plt.subplots(nrows, ncols)]: a new figure and its axes. *)
Definition plt_subplots (nrows ncols : nat) : M (nat * list axes_ref) :=
  do_call (PltSubplots nrows ncols) (fun w =>
    let f := length (figures w) in
    (inr (f, map (fun k => (f, k)) (seq 0 (nrows * ncols))),
     set_figures (figures w ++ [Figure None (repeat [] (nrows * ncols)) false]) w)).

(** [a, b = xs] *)
Definition unpack2 {A} (xs : list A) : M (A * A) :=
  pure_call (Unpack (length xs))
    (match xs with
     | [a; b] => inr (a, b)
     | _ => inl (ValueError "cannot unpack")
     end).

(** [plt.figure(figsize=...)] *)
Definition plt_figure (figsize : R * R) : M unit :=
  draw_call (PltFigure figsize) (fun figs => figs ++ [Figure (Some figsize) [] false]).

(** A method of an axes object. *)
Definition ax_call (ax : axes_ref) (op : axes_op) : M unit :=
  draw_call (AxesCall ax op) (draw_at ax op).

(** A pyplot function: it acts on the current axes. *)
Definition plt_call (op : axes_op) : M unit :=
  draw_call (PltCall op) (draw_current op).

(** [plt.tight_layout()] *)
Definition plt_tight_layout : M unit :=
  draw_call PltTightLayout (fun figs =>
    let figs := gcf figs in
    alter (fun fg => Figure (fig_size fg) (fig_axes fg) true) (length figs - 1)%nat figs).

(** [roc_curve(y_true, y_score)] *)
Definition roc_curve (y_true y_score : ndarray) : M roc :=
  pure_call (RocCurve y_true y_score) (lib_roc_curve L y_true y_score).

(** [auc(x, y)] *)
Definition auc (x y : list scalar) : M float :=
  pure_call (Auc x y) (lib_auc L x y).

(** [os.path.join(a, b)] *)
Definition os_path_join (a b : string) : string :=
  if String.prefix "/" b then b
  else if decide (a = "") then b
  else if String.prefix "/" (String.substring (String.length a - 1) 1 a)
  then a +:+ b
  else a +:+ "/" +:+ b.

(** [pd.read_csv(path)] *)
Definition read_csv (path : string) : M dataframe :=
  do_call (ReadCsv path) (fun w =>
    (match files w !! path with
     | Some (CsvFile df) => inr df
     | Some (NpyFile _) => inl (LibraryError "cannot parse file")
     | None => inl (FileNotFoundError path)
     end, w)).

(** [frame[key]] *)
Definition column (frame : dataframe) (key : string) : M ndarray :=
  pure_call (FrameGetItem key)
    (match df_columns frame !! key with
     | Some col => inr (series col)
     | None => inl (KeyError key)
     end).

(** ** The cells of the notebook, in order *)

Definition data_dir : string := "data\hx_series".
Definition csv_dir : string := "csv".

(** Fetch the arrays saved by the previous notebook. *)
Definition cell_load : M (ndarray * ndarray * ndarray * ndarray) :=
  X_train ← np_load "X_train_prepared.npy";
  y_train ← np_load "y_train_prepared.npy";
  X_valid ← np_load "X_valid_prepared.npy";
  y_valid ← np_load "y_valid_prepared.npy";
  mret (X_train, y_train, X_valid, y_valid).

Definition lstm_kwargs : Keras.lstm_kwargs_t :=
  Keras.LstmKwargs 0.25 0.1 true 2.

(** 3.1.2 Construct an LSTM network. *)
Definition cell_construct (X_train : ndarray) : M Keras.model_t :=
  features ← shape X_train (-1);
  x ← Input [None; Some features] "input";
  mask ← apply (Keras.Masking 0 "input_masked") x;
  lstm1 ← apply (Keras.LSTM 128 lstm_kwargs "lstm1") mask;
  output ← apply (Keras.TimeDistributed (Keras.Dense 1 Keras.Sigmoid) "output") lstm1;
  model ← Model x output;
  let optimizer := Keras.RMSprop 0.005 in
  model ← compile model optimizer "binary_crossentropy";
  summary model;;
  mret model.

(** 3.2 Train the model. *)
Definition cell_train (model : Keras.model_t) (X_train y_train : ndarray)
    : M (list float * Keras.model_t) :=
  fit model X_train y_train 128 5 1.

(** 3.3 Evaluate the model using validation data. *)
Definition cell_evaluate (model : Keras.model_t) (X_valid : ndarray) : M ndarray :=
  predict model X_valid.

Definition cell_shape (preds : ndarray) : M unit :=
  display (nd_shape preds).

(** 3.4 Visualize the results. *)
Definition cell_visualize (X_valid preds : ndarray) : M unit :=
  numencnt ← shape X_valid 0;
  ix ← randint 0 (Z.of_nat numencnt - 1);
  fa ← plt_subplots 2 1;
  '(ax1, ax2) ← unpack2 (snd fa);
  obs ← item X_valid [Int ix; Slice (Some 1%Z) (Some 50%Z); full];
  ax_call ax1 (Pcolor (transpose obs));;
  ax_call ax1 (SetYlim 0 265);;
  plt_call (SetYlabel "mortality" None);;
  plt_call (SetXlabel "time/observation" None);;
  line ← item preds [Int ix; Slice (Some 1%Z) (Some 50%Z)];
  ax_call ax2 (Plot [nd_data line] None None None None).

(** 3.5 The ROC information of the network's predictions. *)
Definition cell_rnn_roc (y_valid preds : ndarray) : M (roc * float) :=
  first ← item y_valid [full; Int 0; full];
  let label := squeeze first in
  last ← item preds [full; Int (-1); full];
  let prediction := squeeze last in
  rnn_roc ← roc_curve label prediction;
  rnn_auc ← auc (fpr rnn_roc) (tpr rnn_roc);
  mret (rnn_roc, rnn_auc).

(** 3.5 The ROC information of the two baseline scores. *)
Definition cell_baselines : M (roc * roc * float * float) :=
  index ← read_csv (os_path_join "/dli/task/csv" "pim2prism3.csv");
  mortrep ← column index "mortalityResponse";
  pim2 ← column index "PIM2";
  pim2_roc ← roc_curve mortrep (nd_neg pim2);
  prism3 ← column index "PRISM3";
  prism3_roc ← roc_curve mortrep (nd_neg prism3);
  pim2_auc ← auc (fpr pim2_roc) (tpr pim2_roc);
  prism3_auc ← auc (fpr prism3_roc) (tpr prism3_roc);
  mret (pim2_roc, prism3_roc, pim2_auc, prism3_auc).

(** 3.5 Plot the three ROC curves and display the AUCs. *)
Definition cell_plot_rocs (rnn_roc pim2_roc prism3_roc : roc)
    (rnn_auc pim2_auc prism3_auc : float) : M unit :=
  plt_figure (7, 5);;
  let line_kwargs := (Some 4, Some 0.8) in
  plt_call (Plot [fpr prism3_roc; tpr prism3_roc]
              (Some (percent "prism3: %0.3f" prism3_auc)) (Some "#4A86E8")
              (fst line_kwargs) (snd line_kwargs));;
  plt_call (Plot [fpr pim2_roc; tpr pim2_roc]
              (Some (percent "pim2: %0.3f" pim2_auc)) (Some "#FF9900")
              (fst line_kwargs) (snd line_kwargs));;
  plt_call (Plot [fpr rnn_roc; tpr rnn_roc]
              (Some (percent "rnn: %0.3f" rnn_auc)) (Some "#6AA84F")
              (fst line_kwargs) (snd line_kwargs));;
  plt_call (Legend "lower right" 20);;
  plt_call (SetXlim (-0.05) 1.05);;
  plt_call (SetYlim (-0.05) 1.05);;
  plt_call (SetXticks [0; 0.25; 0.5; 0.75; 1.0] 14);;
  plt_call (SetYticks [0; 0.25; 0.5; 0.75; 1.0] 14);;
  plt_call (SetXlabel "False Positive Rate" (Some 18));;
  plt_call (SetYlabel "True Positive Rate" (Some 18));;
  plt_call (SetTitle "Severity of Illness ROC Curves" 24);;
  plt_call (Grid 0.25);;
  plt_tight_layout.

(** The notebook: its cells run from top to bottom, and the first exception
    ends the run. *)
Definition notebook : M unit :=
  '(X_train, y_train, X_valid, y_valid) ← cell_load;
  model ← cell_construct X_train;
  '(history, model) ← cell_train model X_train y_train;
  preds ← cell_evaluate model X_valid;
  cell_shape preds;;
  cell_visualize X_valid preds;;
  '(rnn_roc, rnn_auc) ← cell_rnn_roc y_valid preds;
  '(pim2_roc, prism3_roc, pim2_auc, prism3_auc) ← cell_baselines;
  cell_plot_rocs rnn_roc pim2_roc prism3_roc rnn_auc pim2_auc prism3_auc.

End Notebook.

(** A world before the notebook runs: nothing drawn, nothing logged. *)
Definition fresh (fs : gmap string file) (en : list nat) : world :=
  World fs en [] [].

(** ** The script every run follows

    The kind of a call: the call without the values computed at run time. *)

Inductive kind :=
| K_load (file : string)
| K_shape (axis : Z)
| K_item
| K_input
| K_apply
| K_model
| K_compile
| K_summary
| K_fit (batch_size epochs : Z)
| K_predict
| K_display
| K_randint
| K_subplots
| K_unpack
| K_figure
| K_axes
| K_pyplot
| K_tight
| K_roc_curve
| K_auc
| K_read_csv (path : string)
| K_column (key : string).

Definition kind_of (c : call) : kind :=
  match c with
  | NpLoad file => K_load file
  | ShapeAt _ axis => K_shape axis
  | GetItem _ _ => K_item
  | KerasInput _ _ => K_input
  | KerasApply _ => K_apply
  | KerasModel _ => K_model
  | KerasCompile _ _ => K_compile
  | KerasSummary => K_summary
  | KerasFit _ _ batch_size epochs _ => K_fit batch_size epochs
  | KerasPredict _ => K_predict
  | Display _ => K_display
  | RandomRandint _ _ => K_randint
  | PltSubplots _ _ => K_subplots
  | Unpack _ => K_unpack
  | PltFigure _ => K_figure
  | AxesCall _ _ => K_axes
  | PltCall _ => K_pyplot
  | PltTightLayout => K_tight
  | RocCurve _ _ => K_roc_curve
  | Auc _ _ => K_auc
  | ReadCsv path => K_read_csv path
  | FrameGetItem key => K_column key
  end.

Definition kinds (evs : list event) : list kind :=
  map (fun ev => kind_of (ev_call ev)) evs.

Definition succeeded (ev : event) : Prop := ev_raised ev = None.

Definition load_script : list kind :=
  [ K_load "X_train_prepared.npy"; K_load "y_train_prepared.npy";
    K_load "X_valid_prepared.npy"; K_load "y_valid_prepared.npy" ].

Definition construct_script : list kind :=
  [ K_shape (-1); K_input; K_apply; K_apply; K_apply; K_model; K_compile;
    K_summary ].

Definition visualize_script : list kind :=
  [ K_shape 0; K_randint; K_subplots; K_unpack; K_item; K_axes; K_axes;
    K_pyplot; K_pyplot; K_item; K_axes ].

Definition rnn_roc_script : list kind := [ K_item; K_item; K_roc_curve; K_auc ].

Definition baselines_script : list kind :=
  [ K_read_csv "/dli/task/csv/pim2prism3.csv"; K_column "mortalityResponse";
    K_column "PIM2"; K_roc_curve; K_column "PRISM3"; K_roc_curve; K_auc; K_auc ].

Definition plot_rocs_script : list kind :=
  K_figure :: repeat K_pyplot 12 ++ [K_tight].

Definition script : list kind :=
  load_script ++ construct_script ++ [K_fit 128 5] ++ [K_predict] ++ [K_display]
    ++ visualize_script ++ rnn_roc_script ++ baselines_script ++ plot_rocs_script.

Definition is_load (k : kind) : bool :=
  match k with K_load _ => true | _ => false end.

Definition is_fit (k : kind) : bool :=
  match k with K_fit _ _ => true | _ => false end.

Definition is_predict (k : kind) : bool :=
  match k with K_predict => true | _ => false end.

(** A computation follows a script when, from any world, the calls it makes
    are the script's, in order and all returning, up to the first call that
    raises; that call is the last one made and its exception is the result. *)
Definition scripted {A} (s : list kind) (m : M A) : Prop :=
  forall w, exists evs,
    trace (snd (m w)) = trace w ++ evs /\
    match fst (m w) with
    | inr _ => kinds evs = s /\ Forall succeeded evs
    | inl e => exists pre c,
        evs = pre ++ [Event c (Some e)] /\ Forall succeeded pre /\
        kinds evs `prefix_of` s
    end.

Definition is_randint (k : kind) : bool :=
  match k with K_randint => true | _ => false end.

(** What a computation may touch: it leaves the files alone and adds at most
    [figs] figures after the existing ones, which it leaves as they are. *)
Definition footprint {A} (figs : nat) (m : M A) : Prop :=
  forall w,
    files (snd (m w)) = files w /\
    (exists new, figures (snd (m w)) = figures w ++ new /\ length new <= figs).

(** Some calls of interest. *)
Definition load_call (ev : event) : bool :=
  match ev_call ev with NpLoad _ => true | _ => false end.

Definition fit_call (ev : event) : bool :=
  match ev_call ev with KerasFit _ _ _ _ _ => true | _ => false end.

Definition predict_call (ev : event) : bool :=
  match ev_call ev with KerasPredict _ => true | _ => false end.

Definition metric_call (ev : event) : bool :=
  match ev_call ev with RocCurve _ _ | Auc _ _ => true | _ => false end.


Definition randint_call (ev : event) : bool :=
  match ev_call ev with RandomRandint _ _ => true | _ => false end.

(** ** A complete run

    The values the notebook's variables hold when every cell has run, and the
    calls and figures such a run leaves behind, as functions of those values. *)

Record namespace := Namespace {
  v_X_train : ndarray;
  v_y_train : ndarray;
  v_X_valid : ndarray;
  v_y_valid : ndarray;
  v_features : nat;
  v_history : list float;
  v_trained : Keras.weights;
  v_preds : ndarray;
  v_numencnt : nat;
  v_obs : ndarray;
  v_line : ndarray;
  v_first : ndarray;
  v_last : ndarray;
  v_rnn_roc : roc;
  v_rnn_auc : float;
  v_index : dataframe;
  v_mortrep : list scalar;
  v_pim2 : list scalar;
  v_prism3 : list scalar;
  v_pim2_roc : roc;
  v_prism3_roc : roc;
  v_pim2_auc : float;
  v_prism3_auc : float }.

Definition ok (c : call) : event := Event c None.

Definition csv_path : string := "/dli/task/csv/pim2prism3.csv".

Section Complete.

Context (L : library).

#[local] Open Scope R_scope.

(** The layers [cell_construct] chains for a feature width. *)
Definition network (features : nat) : list Keras.layer :=
  [ Keras.InputLayer [None; Some features] "input";
    Keras.Masking 0 "input_masked";
    Keras.LSTM 128 lstm_kwargs "lstm1";
    Keras.TimeDistributed (Keras.Dense 1 Keras.Sigmoid) "output" ].

Definition constructed (features : nat) : Keras.model_t :=
  Keras.Model_ (network features)
    (Some (Keras.RMSprop 0.005, "binary_crossentropy"%string))
    (lib_initializer L (network features)).

Definition trained (features : nat) (ws : Keras.weights) : Keras.model_t :=
  Keras.Model_ (network features)
    (Some (Keras.RMSprop 0.005, "binary_crossentropy"%string)) ws.

(** The forward pass of that network on one encounter. *)
Definition network_forward (ws : Keras.weights) (xs : list (list float))
    : list (list float) :=
  let masked := Keras.masking 0 xs in
  map (Keras.dense 1 Keras.Sigmoid (Keras.w_dense ws))
    (Keras.lstm 128 (Keras.w_lstm ws) (fst masked) (snd masked)).

(** Its predictions for an array of shape [(n, t, features)]. *)
Definition predicted (ws : Keras.weights) (n t features : nat) (d : list scalar)
    : ndarray :=
  NdArray [n; t; 1%nat]
    (map Float
       (concat (concat (map (network_forward ws)
                          (Keras.encounters n t features d))))).

(** The Keras calls of a run, in order, and the random stream after the
    numbers they took. *)
Definition construct_calls (features : nat) : list call :=
  [ KerasInput [None; Some features] "input";
    KerasApply (Keras.Masking 0 "input_masked");
    KerasApply (Keras.LSTM 128 lstm_kwargs "lstm1");
    KerasApply (Keras.TimeDistributed (Keras.Dense 1 Keras.Sigmoid) "output");
    KerasModel (network features);
    KerasCompile (Keras.RMSprop 0.005) "binary_crossentropy";
    KerasSummary ].

Definition seeded (cs : list call) (en : list nat) : list nat :=
  fold_left (fun en c => drop (lib_seeds L c) en) cs en.

Definition load_events : list event :=
  [ ok (NpLoad "X_train_prepared.npy"); ok (NpLoad "y_train_prepared.npy");
    ok (NpLoad "X_valid_prepared.npy"); ok (NpLoad "y_valid_prepared.npy") ].

Definition construct_events (X_train : ndarray) (features : nat) : list event :=
  ok (ShapeAt X_train (-1)) :: map ok (construct_calls features).

(** The encounter drawn by [random.randint(0, numencnt - 1)]. *)
Definition drawn (en : list nat) (numencnt : nat) : Z :=
  (0 + Z.of_nat (hd 0%nat en) mod (Z.of_nat numencnt - 1 - 0 + 1))%Z.

Definition encounter_index (ix : Z) : list index :=
  [Int ix; Slice (Some 1%Z) (Some 50%Z)].

Definition visualize_events (nfig : nat) (ix : Z) (X_valid preds : ndarray)
    (numencnt : nat) (obs line : ndarray) : list event :=
  [ ok (ShapeAt X_valid 0);
    ok (RandomRandint 0 (Z.of_nat numencnt - 1));
    ok (PltSubplots 2 1);
    ok (Unpack 2);
    ok (GetItem X_valid (encounter_index ix ++ [full]));
    ok (AxesCall (nfig, 0%nat) (Pcolor (transpose obs)));
    ok (AxesCall (nfig, 0%nat) (SetYlim 0 265));
    ok (PltCall (SetYlabel "mortality" None));
    ok (PltCall (SetXlabel "time/observation" None));
    ok (GetItem preds (encounter_index ix));
    ok (AxesCall (nfig, 1%nat) (Plot [nd_data line] None None None None)) ].

Definition encounter_figure (obs line : ndarray) : figure :=
  Figure None
    [ [ Pcolor (transpose obs); SetYlim 0 265 ];
      [ SetYlabel "mortality" None; SetXlabel "time/observation" None;
        Plot [nd_data line] None None None None ] ]
    false.

Definition rnn_roc_events (y_valid preds first last : ndarray) (rnn_roc : roc)
    : list event :=
  [ ok (GetItem y_valid [full; Int 0; full]);
    ok (GetItem preds [full; Int (-1); full]);
    ok (RocCurve (squeeze first) (squeeze last));
    ok (Auc (fpr rnn_roc) (tpr rnn_roc)) ].

Definition baseline_events (mortrep pim2 prism3 : list scalar)
    (pim2_roc prism3_roc : roc) : list event :=
  [ ok (ReadCsv csv_path);
    ok (FrameGetItem "mortalityResponse");
    ok (FrameGetItem "PIM2");
    ok (RocCurve (series mortrep) (nd_neg (series pim2)));
    ok (FrameGetItem "PRISM3");
    ok (RocCurve (series mortrep) (nd_neg (series prism3)));
    ok (Auc (fpr pim2_roc) (tpr pim2_roc));
    ok (Auc (fpr prism3_roc) (tpr prism3_roc)) ].

Definition roc_line (r : roc) (fmt : string) (area : float) (color : string)
    : axes_op :=
  Plot [fpr r; tpr r] (Some (percent fmt area)) (Some color) (Some 4) (Some 0.8).

Definition roc_ops (rnn_roc pim2_roc prism3_roc : roc)
    (rnn_auc pim2_auc prism3_auc : float) : list axes_op :=
  [ roc_line prism3_roc "prism3: %0.3f" prism3_auc "#4A86E8";
    roc_line pim2_roc "pim2: %0.3f" pim2_auc "#FF9900";
    roc_line rnn_roc "rnn: %0.3f" rnn_auc "#6AA84F";
    Legend "lower right" 20;
    SetXlim (-0.05) 1.05;
    SetYlim (-0.05) 1.05;
    SetXticks [0; 0.25; 0.5; 0.75; 1.0] 14;
    SetYticks [0; 0.25; 0.5; 0.75; 1.0] 14;
    SetXlabel "False Positive Rate" (Some 18);
    SetYlabel "True Positive Rate" (Some 18);
    SetTitle "Severity of Illness ROC Curves" 24;
    Grid 0.25 ].

Definition plot_rocs_events (ops : list axes_op) : list event :=
  ok (PltFigure (7, 5)) :: map (fun op => ok (PltCall op)) ops
    ++ [ok PltTightLayout].

Definition roc_figure (ops : list axes_op) : figure :=
  Figure (Some (7, 5)) [ops] true.

Definition v_roc_ops (v : namespace) : list axes_op :=
  roc_ops (v_rnn_roc v) (v_pim2_roc v) (v_prism3_roc v)
    (v_rnn_auc v) (v_pim2_auc v) (v_prism3_auc v).

Definition label (v : namespace) : ndarray := squeeze (v_first v).
Definition prediction (v : namespace) : ndarray := squeeze (v_last v).

Definition run_events (nfig : nat) (ix : Z) (v : namespace) : list event :=
  load_events
    ++ construct_events (v_X_train v) (v_features v)
    ++ [ ok (KerasFit (v_X_train v) (v_y_train v) 128 5 1);
         ok (KerasPredict (v_X_valid v));
         ok (Display (nd_shape (v_preds v))) ]
    ++ visualize_events nfig ix (v_X_valid v) (v_preds v) (v_numencnt v)
         (v_obs v) (v_line v)
    ++ rnn_roc_events (v_y_valid v) (v_preds v) (v_first v) (v_last v)
         (v_rnn_roc v)
    ++ baseline_events (v_mortrep v) (v_pim2 v) (v_prism3 v)
         (v_pim2_roc v) (v_prism3_roc v)
    ++ plot_rocs_events (v_roc_ops v).

Definition run_figures (v : namespace) : list figure :=
  [encounter_figure (v_obs v) (v_line v); roc_figure (v_roc_ops v)].

Definition loaded (w : world) (path : string) (a : ndarray) : Prop :=
  files w !! path = Some (NpyFile a) /\ nd_wf a = true.

Definition keras_calls (v : namespace) : list call :=
  construct_calls (v_features v)
    ++ [ KerasFit (v_X_train v) (v_y_train v) 128 5 1;
         KerasPredict (v_X_valid v) ].

(** The random stream when the notebook draws the encounter to plot. *)
Definition stream_at_draw (w : world) (v : namespace) : list nat :=
  seeded (keras_calls v) (entropy w).

Definition v_ix (w : world) (v : namespace) : Z :=
  drawn (stream_at_draw w v) (v_numencnt v).

(** What holds of the variables of a complete run. *)
Definition complete (w : world) (v : namespace) : Prop :=
  loaded w "X_train_prepared.npy" (v_X_train v)
  /\ loaded w "y_train_prepared.npy" (v_y_train v)
  /\ loaded w "X_valid_prepared.npy" (v_X_valid v)
  /\ loaded w "y_valid_prepared.npy" (v_y_valid v)
  /\ shape_at (v_X_train v) (-1) = inr (v_features v)
  /\ lib_fit L (constructed (v_features v)) (v_X_train v) (v_y_train v) 128 5
     = inr (v_history v, v_trained v)
  /\ Keras.predict (trained (v_features v) (v_trained v)) (v_X_valid v)
     = Some (v_preds v)
  /\ shape_at (v_X_valid v) 0 = inr (v_numencnt v)
  /\ (0 <= Z.of_nat (v_numencnt v) - 1)%Z
  /\ getitem (v_X_valid v) (encounter_index (v_ix w v) ++ [full])
     = inr (v_obs v)
  /\ getitem (v_preds v) (encounter_index (v_ix w v)) = inr (v_line v)
  /\ getitem (v_y_valid v) [full; Int 0; full] = inr (v_first v)
  /\ getitem (v_preds v) [full; Int (-1); full] = inr (v_last v)
  /\ lib_roc_curve L (label v) (prediction v) = inr (v_rnn_roc v)
  /\ lib_auc L (fpr (v_rnn_roc v)) (tpr (v_rnn_roc v)) = inr (v_rnn_auc v)
  /\ files w !! csv_path = Some (CsvFile (v_index v))
  /\ df_columns (v_index v) !! "mortalityResponse"%string = Some (v_mortrep v)
  /\ df_columns (v_index v) !! "PIM2"%string = Some (v_pim2 v)
  /\ df_columns (v_index v) !! "PRISM3"%string = Some (v_prism3 v)
  /\ lib_roc_curve L (series (v_mortrep v)) (nd_neg (series (v_pim2 v)))
     = inr (v_pim2_roc v)
  /\ lib_roc_curve L (series (v_mortrep v)) (nd_neg (series (v_prism3 v)))
     = inr (v_prism3_roc v)
  /\ lib_auc L (fpr (v_pim2_roc v)) (tpr (v_pim2_roc v)) = inr (v_pim2_auc v)
  /\ lib_auc L (fpr (v_prism3_roc v)) (tpr (v_prism3_roc v)) = inr (v_prism3_auc v).

(** The world a complete run ends in. *)
Definition final (w : world) (v : namespace) : world :=
  World (files w) (tail (stream_at_draw w v)) (figures w ++ run_figures v)
    (trace w ++ run_events (length (figures w)) (v_ix w v) v).

End Complete.

(** ** A small world on which the notebook runs to completion *)

Module Demo.

#[local] Open Scope R_scope.

Definition weights : Keras.weights :=
  Keras.Weights
    (Keras.LstmW (fun _ _ => [Real 1]) (fun _ _ => []) (fun _ _ => Real 0))
    (Keras.DenseW (fun _ => [Real 1]) (fun _ => Real 0)).

(** The area under a curve by the trapezoidal rule. *)
Fixpoint trapz (xs ys : list scalar) : float :=
  match xs, ys with
  | x0 :: ((x1 :: _) as xs'), y0 :: ((y1 :: _) as ys') =>
      fadd (fmul (fmul (fadd (to_float x1) (fopp (to_float x0)))
                       (fadd (to_float y0) (to_float y1)))
                 (Real (1 / 2)))
           (trapz xs' ys')
  | _, _ => Real 0
  end.

(** The numbers Keras takes from the random stream: one seed for each of
    the two dropouts and the two initialisers of the recurrent layer. *)
Definition seeds (c : call) : nat :=
  match c with
  | KerasApply (Keras.LSTM _ _ _) => 4
  | _ => 0
  end.

(** A library that trains nothing and always answers with the diagonal. *)
Definition lib : library :=
  Library
    seeds
    (fun _ => weights)
    (fun m _ _ _ _ => inr ([], Keras.m_weights m))
    (fun _ => ValueError "Invalid input shape")
    (fun _ _ => inr (Roc [real 0; real 1] [real 0; real 1] [real 1; real 0]))
    (fun xs ys => inr (trapz xs ys)).

Definition X_train : ndarray := NdArray [2; 2; 1]%nat (map real [1; 0; 0; 1]).
Definition y_train : ndarray := NdArray [2; 2; 1]%nat (map Int64 [1; 1; 0; 0]%Z).
Definition X_valid : ndarray :=
  NdArray [2; 3; 1]%nat (map real [1; 0; 2; 0; 1; 1]).
Definition y_valid : ndarray :=
  NdArray [2; 3; 1]%nat (map Int64 [1; 1; 1; 0; 0; 0]%Z).

Definition scores : dataframe :=
  DataFrame (<["mortalityResponse"%string := map Int64 [1; 0]%Z]>
            (<["PIM2"%string := map real [-1; -3]]>
            (<["PRISM3"%string := map Int64 [5; 2]%Z]> ∅))).

Definition disk : gmap string file :=
  <["X_train_prepared.npy"%string := NpyFile X_train]>
  (<["y_train_prepared.npy"%string := NpyFile y_train]>
  (<["X_valid_prepared.npy"%string := NpyFile X_valid]>
  (<["y_valid_prepared.npy"%string := NpyFile y_valid]>
  (<[csv_path := CsvFile scores]> ∅)))).

Definition start : world := fresh disk [8; 1; 6; 2; 3]%nat.

(** The same world with validation inputs of four axes, the last of length
    one. *)
Definition X_valid_4d : ndarray :=
  NdArray [2; 3; 1; 1]%nat (map real [1; 0; 2; 0; 1; 1]).

Definition start_4d : world :=
  fresh (<["X_valid_prepared.npy"%string := NpyFile X_valid_4d]> disk)
    [8; 1; 6; 2; 3]%nat.



End Demo.

(** ** Running the monad *)

Lemma bind_do_call {A B} c (sem : world -> (exn + A) * world) (k : A -> M B) w :
  (do_call c sem ≫= k) w =
  match sem w with
  | (inr a, w1) => k a (log c None w1)
  | (inl e, w1) => (inl e, log c (Some e) w1)
  end.
Proof. unfold mbind, M_bind, do_call. destruct (sem w) as [[e|a] w1]; reflexivity. Qed.

Lemma bind_pure_call {A B} c (r : exn + A) (k : A -> M B) w :
  (pure_call c r ≫= k) w =
  match r with
  | inr a => k a (log c None w)
  | inl e => (inl e, log c (Some e) w)
  end.
Proof. unfold pure_call. rewrite bind_do_call. destruct r; reflexivity. Qed.

Lemma bind_ret {A B} (a : A) (k : A -> M B) w : (mret a ≫= k) w = k a w.
Proof. reflexivity. Qed.

Lemma run_do_call {A} c (sem : world -> (exn + A) * world) w :
  do_call c sem w =
  match sem w with
  | (inr a, w1) => (inr a, log c None w1)
  | (inl e, w1) => (inl e, log c (Some e) w1)
  end.
Proof. reflexivity. Qed.

Lemma run_pure_call {A} c (r : exn + A) w :
  pure_call c r w =
  match r with
  | inr a => (inr a, log c None w)
  | inl e => (inl e, log c (Some e) w)
  end.
Proof. unfold pure_call. rewrite run_do_call. destruct r; reflexivity. Qed.

Lemma bind_keras_call {A B} L c (r : exn + A) (k : A -> M B) w :
  (keras_call L c r ≫= k) w =
  match r with
  | inr a => k a (log c None (set_entropy (drop (lib_seeds L c) (entropy w)) w))
  | inl e => (inl e, log c (Some e) (set_entropy (drop (lib_seeds L c) (entropy w)) w))
  end.
Proof. unfold keras_call. rewrite bind_do_call. destruct r; reflexivity. Qed.

Lemma run_keras_call {A} L c (r : exn + A) w :
  keras_call L c r w =
  match r with
  | inr a => (inr a, log c None (set_entropy (drop (lib_seeds L c) (entropy w)) w))
  | inl e => (inl e, log c (Some e) (set_entropy (drop (lib_seeds L c) (entropy w)) w))
  end.
Proof. unfold keras_call. rewrite run_do_call. destruct r; reflexivity. Qed.

Lemma run_ret {A} (a : A) w : (mret a : M A) w = (inr a, w).
Proof. reflexivity. Qed.

Lemma bind_inr {A B} (m : M A) (k : A -> M B) w b w' :
  (m ≫= k) w = (inr b, w') <->
  exists a w1, m w = (inr a, w1) /\ k a w1 = (inr b, w').
Proof.
  unfold mbind, M_bind. destruct (m w) as [[e|a] w1].
  - split; [discriminate | intros (? & ? & ? & ?); discriminate].
  - split; [eauto | intros (? & ? & [= <- <-] & ?); done].
Qed.

Lemma bind_inl {A B} (m : M A) (k : A -> M B) w e w1 :
  m w = (inl e, w1) -> (m ≫= k) w = (inl e, w1).
Proof. intros H. unfold mbind, M_bind. rewrite H. reflexivity. Qed.

Lemma returned_inv {A} (a b : A) (w1 w2 : world) :
  (inr a : exn + A, w1) = (inr b, w2) -> a = b /\ w2 = w1.
Proof. intros [= -> ->]. done. Qed.

Lemma returned_intro {A} (a b : A) (w1 w2 : world) :
  a = b -> w1 = w2 -> (inr a : exn + A, w1) = (inr b, w2).
Proof. intros -> ->. done. Qed.

Lemma world_ext (a b : world) :
  files a = files b -> entropy a = entropy b -> figures a = figures b ->
  trace a = trace b -> a = b.
Proof. destruct a, b. cbn. congruence. Qed.

(** ** matplotlib: drawing on the newest figure *)

Lemma draw_at_new figs fg k op :
  draw_at (length figs, k) op (figs ++ [fg]) =
  figs ++ [Figure (fig_size fg) (alter (fun ops => ops ++ [op]) k (fig_axes fg))
             (fig_tight fg)].
Proof.
  unfold draw_at. cbn [fst snd].
  rewrite <- (Nat.add_0_r (length figs)) at 1.
  rewrite alter_app_r. reflexivity.
Qed.

Lemma last_index_alter {A} (f : A -> A) (l : list A) (x : A) :
  alter f (length (l ++ [x]) - 1) (l ++ [x]) = l ++ [f x].
Proof.
  rewrite length_app. cbn [length].
  replace (length l + 1 - 1) with (length l + 0) by lia.
  rewrite alter_app_r. reflexivity.
Qed.

Lemma gcf_new figs fg : gcf (figs ++ [fg]) = figs ++ [fg].
Proof. destruct figs; reflexivity. Qed.

Lemma draw_current_new figs fg op :
  draw_current op (figs ++ [fg]) =
  figs ++ [Figure (fig_size (gca fg))
             (alter (fun ops => ops ++ [op]) (length (fig_axes (gca fg)) - 1)
                (fig_axes (gca fg)))
             (fig_tight (gca fg))].
Proof.
  unfold draw_current, with_current_axes, current_axes.
  rewrite gcf_new, last_index_alter, last_snoc. cbn [default from_option id].
  rewrite length_app. cbn [length].
  replace (length figs + 1 - 1) with (length figs) by lia.
  apply draw_at_new.
Qed.

Lemma tight_new figs fg :
  (let figs0 := gcf (figs ++ [fg]) in
   alter (fun fg => Figure (fig_size fg) (fig_axes fg) true) (length figs0 - 1) figs0)
  = figs ++ [Figure (fig_size fg) (fig_axes fg) true].
Proof. cbv zeta. rewrite gcf_new, last_index_alter. reflexivity. Qed.

(** ** Symbolic execution of the cells *)

Ltac inner_case :=
  match goal with
  | |- context [match ?x with _ => _ end] =>
      lazymatch x with
      | context [match _ with _ => _ end] => fail
      | _ => destruct x eqn:?
      end
  end.

Ltac step :=
  first [ rewrite bind_pure_call | rewrite bind_keras_call | rewrite bind_do_call
        | rewrite bind_ret
        | rewrite run_pure_call | rewrite run_keras_call | rewrite run_do_call
        | rewrite run_ret ];
  cbn [files entropy figures trace log set_figures set_entropy fst snd
       map seq Nat.mul Nat.add length repeat].

Ltac exec := repeat first [ step | inner_case ].

Ltac same_lhs :=
  simplify_eq;
  repeat match goal with
         | H1 : ?x = _, H2 : ?x = _ |- _ => rewrite H1 in H2; simplify_eq
         end.

Ltac draw :=
  repeat (first [ rewrite draw_at_new | rewrite draw_current_new | rewrite tight_new ];
          cbn [gca fig_axes fig_size fig_tight alter list_alter length Nat.sub app]).

Ltac world_eq :=
  apply world_ext;
  cbn [files entropy figures trace log set_figures set_entropy];
  [ reflexivity | reflexivity | draw; reflexivity
  | unfold ok; rewrite <- ?app_assoc; reflexivity ].

Ltac open_hyps :=
  repeat match goal with
         | H : _ /\ _ |- _ => destruct H
         | H : exists _, _ |- _ => destruct H
         end.

(** A branch where a call raised cannot be a complete run. *)
Ltac raised :=
  split; [ discriminate
         | intros ?; open_hyps; same_lhs; first [ congruence | lia ] ].

Ltac returned :=
  split;
  [ intros [? ->]%returned_inv; simplify_eq
  | intros ?; open_hyps; same_lhs; apply returned_intro;
    [ reflexivity | world_eq ] ].

Lemma cell_load_spec w Xt yt Xv yv w' :
  cell_load w = (inr (Xt, yt, Xv, yv), w') <->
  loaded w "X_train_prepared.npy" Xt /\ loaded w "y_train_prepared.npy" yt /\
  loaded w "X_valid_prepared.npy" Xv /\ loaded w "y_valid_prepared.npy" yv /\
  w' = World (files w) (entropy w) (figures w) (trace w ++ load_events).
Proof.
  unfold cell_load, np_load, loaded, load_events. exec; try raised.
  returned. repeat split; try done. world_eq.
Qed.

Lemma cell_construct_spec L Xt w m w' :
  cell_construct L Xt w = (inr m, w') <->
  exists F, shape_at Xt (-1) = inr F /\ m = constructed L F /\
    w' = World (files w) (seeded L (construct_calls F) (entropy w)) (figures w)
           (trace w ++ construct_events Xt F).
Proof.
  unfold cell_construct, shape, Input, apply, Model, compile, summary,
    construct_events, construct_calls, seeded.
  cbn [map fold_left].
  exec; try raised.
  returned. eexists. split; [reflexivity|]. split; [reflexivity|]. world_eq.
Qed.

Lemma cell_train_spec L m Xt yt w h m' w' :
  cell_train L m Xt yt w = (inr (h, m'), w') <->
  exists ws, lib_fit L m Xt yt 128 5 = inr (h, ws) /\
    m' = Keras.Model_ (Keras.m_layers m) (Keras.m_compiled m) ws /\
    w' = World (files w) (seeded L [KerasFit Xt yt 128 5 1] (entropy w)) (figures w)
           (trace w ++ [ok (KerasFit Xt yt 128 5 1)]).
Proof.
  unfold cell_train, fit, seeded. cbn [fold_left]. exec; try raised.
  returned. eexists. split; [reflexivity|]. split; [reflexivity|]. world_eq.
Qed.

Lemma cell_evaluate_spec L m Xv w p w' :
  cell_evaluate L m Xv w = (inr p, w') <->
  Keras.predict m Xv = Some p /\
    w' = World (files w) (seeded L [KerasPredict Xv] (entropy w)) (figures w)
           (trace w ++ [ok (KerasPredict Xv)]).
Proof.
  unfold cell_evaluate, predict, seeded. cbn [fold_left]. exec; try raised.
  returned. split; [reflexivity|]. world_eq.
Qed.

Lemma cell_shape_spec p w w' :
  cell_shape p w = (inr tt, w') <->
    w' = World (files w) (entropy w) (figures w)
           (trace w ++ [ok (Display (nd_shape p))]).
Proof.
  unfold cell_shape, display. exec. returned. world_eq.
Qed.

Lemma cell_visualize_spec X p w w' :
  cell_visualize X p w = (inr tt, w') <->
  exists n obs line,
    shape_at X 0 = inr n /\
    (0 <= Z.of_nat n - 1)%Z /\
    getitem X (encounter_index (drawn (entropy w) n) ++ [full]) = inr obs /\
    getitem p (encounter_index (drawn (entropy w) n)) = inr line /\
    w' = World (files w) (tail (entropy w))
           (figures w ++ [encounter_figure obs line])
           (trace w ++ visualize_events (length (figures w))
              (drawn (entropy w) n) X p n obs line).
Proof.
  unfold cell_visualize, shape, randint, plt_subplots, unpack2, item, ax_call,
    plt_call, draw_call, encounter_index, drawn, visualize_events, encounter_figure.
  cbn [app]. exec; try raised.
  returned. do 3 eexists.
  split; [reflexivity|]. split; [lia|]. split; [eassumption|]. split; [eassumption|].
  world_eq.
Qed.

Lemma cell_rnn_roc_spec L yv p w r a w' :
  cell_rnn_roc L yv p w = (inr (r, a), w') <->
  exists first last,
    getitem yv [full; Int 0; full] = inr first /\
    getitem p [full; Int (-1); full] = inr last /\
    lib_roc_curve L (squeeze first) (squeeze last) = inr r /\
    lib_auc L (fpr r) (tpr r) = inr a /\
    w' = World (files w) (entropy w) (figures w)
           (trace w ++ rnn_roc_events yv p first last r).
Proof.
  unfold cell_rnn_roc, item, roc_curve, auc, rnn_roc_events. exec; try raised.
  returned. do 2 eexists. repeat (split; [eassumption || reflexivity|]). world_eq.
Qed.

Lemma cell_baselines_spec L w r2 r3 a2 a3 w' :
  cell_baselines L w = (inr (r2, r3, a2, a3), w') <->
  exists index mortrep pim2 prism3,
    files w !! csv_path = Some (CsvFile index) /\
    df_columns index !! "mortalityResponse"%string = Some mortrep /\
    df_columns index !! "PIM2"%string = Some pim2 /\
    df_columns index !! "PRISM3"%string = Some prism3 /\
    lib_roc_curve L (series mortrep) (nd_neg (series pim2)) = inr r2 /\
    lib_roc_curve L (series mortrep) (nd_neg (series prism3)) = inr r3 /\
    lib_auc L (fpr r2) (tpr r2) = inr a2 /\
    lib_auc L (fpr r3) (tpr r3) = inr a3 /\
    w' = World (files w) (entropy w) (figures w)
           (trace w ++ baseline_events mortrep pim2 prism3 r2 r3).
Proof.
  unfold cell_baselines, read_csv, column, roc_curve, auc, baseline_events.
  change (os_path_join "/dli/task/csv" "pim2prism3.csv") with csv_path.
  exec; try raised.
  returned. do 4 eexists. repeat (split; [eassumption || reflexivity|]). world_eq.
Qed.

Lemma cell_plot_rocs_spec r1 r2 r3 a1 a2 a3 w w' :
  cell_plot_rocs r1 r2 r3 a1 a2 a3 w = (inr tt, w') <->
  w' = World (files w) (entropy w)
         (figures w ++ [roc_figure (roc_ops r1 r2 r3 a1 a2 a3)])
         (trace w ++ plot_rocs_events (roc_ops r1 r2 r3 a1 a2 a3)).
Proof.
  unfold cell_plot_rocs, plt_figure, plt_call, plt_tight_layout, draw_call.
  exec.
  unfold plot_rocs_events, roc_figure, roc_ops, roc_line. cbn [map app].
  returned. world_eq.
Qed.

Lemma seeded_app L cs1 cs2 en :
  seeded L (cs1 ++ cs2) en = seeded L cs2 (seeded L cs1 en).
Proof. apply fold_left_app. Qed.

Lemma seeded_two L c1 c2 en :
  seeded L [c1; c2] en = seeded L [c2] (seeded L [c1] en).
Proof. reflexivity. Qed.

Ltac projections :=
  cbn [files entropy figures trace v_X_train v_y_train v_X_valid v_y_valid
       v_features v_history v_trained v_preds v_numencnt v_obs v_line v_first
       v_last v_rnn_roc v_rnn_auc v_index v_mortrep v_pim2 v_prism3 v_pim2_roc
       v_prism3_roc v_pim2_auc v_prism3_auc Keras.m_layers Keras.m_compiled
       Keras.m_weights] in *.

Lemma notebook_complete L w w' :
  notebook L w = (inr tt, w') -> exists v, complete L w v /\ w' = final L w v.
Proof.
  unfold notebook. intros H.
  apply bind_inr in H as ([[[Xt yt] Xv] yv] & w1 & Hc & H).
  apply cell_load_spec in Hc as (? & ? & ? & ? & ->).
  apply bind_inr in H as (m & w1 & Hc & H).
  apply cell_construct_spec in Hc as (F & ? & -> & ->).
  apply bind_inr in H as ([h m'] & w1 & Hc & H).
  apply cell_train_spec in Hc as (ws & ? & -> & ->).
  apply bind_inr in H as (p & w1 & Hc & H).
  apply cell_evaluate_spec in Hc as (? & ->).
  apply bind_inr in H as ([] & w1 & Hc & H).
  apply cell_shape_spec in Hc as ->.
  apply bind_inr in H as ([] & w1 & Hc & H).
  apply cell_visualize_spec in Hc as (n & obs & line & ? & ? & ? & ? & ->).
  apply bind_inr in H as ([r1 a1] & w1 & Hc & H).
  apply cell_rnn_roc_spec in Hc as (fst_ & lst_ & ? & ? & ? & ? & ->).
  apply bind_inr in H as ([[[r2 r3] a2] a3] & w1 & Hc & H).
  apply cell_baselines_spec in Hc as (ix & mr & p2 & p3 & ? & ? & ? & ? & ? & ? & ? & ? & ->).
  apply cell_plot_rocs_spec in H as ->.
  projections.
  exists (Namespace Xt yt Xv yv F h ws p n obs line fst_ lst_ r1 a1 ix mr p2 p3 r2 r3 a2 a3).
  split.
  - unfold complete, label, prediction, constructed, trained, loaded, v_ix,
      stream_at_draw, keras_calls in *.
    projections. rewrite ?seeded_app, ?seeded_two. open_hyps. repeat split; assumption.
  - unfold final, run_figures, run_events, v_roc_ops, v_ix, stream_at_draw,
      keras_calls.
    projections. rewrite ?seeded_app, ?seeded_two.
    apply world_ext; cbn [files entropy figures trace];
      rewrite <- ?app_assoc; reflexivity.
Qed.

Lemma complete_notebook L w v :
  complete L w v -> notebook L w = (inr tt, final L w v).
Proof.
  destruct v.
  unfold complete, label, prediction, v_ix, stream_at_draw, keras_calls.
  projections. rewrite ?seeded_app, ?seeded_two. intros C. open_hyps.
  unfold notebook.
  apply bind_inr. eexists (_, _, _, _), _. split.
  { apply cell_load_spec. repeat (split; [eassumption|]). reflexivity. }
  apply bind_inr. do 2 eexists. split.
  { apply cell_construct_spec. eexists. repeat (split; [eassumption || reflexivity|]).
    reflexivity. }
  apply bind_inr. eexists (_, _), _. split.
  { apply cell_train_spec. eexists. repeat (split; [eassumption || reflexivity|]).
    reflexivity. }
  apply bind_inr. do 2 eexists. split.
  { apply cell_evaluate_spec. split; [eassumption | reflexivity]. }
  apply bind_inr. exists tt. eexists. split.
  { apply cell_shape_spec. reflexivity. }
  apply bind_inr. exists tt. eexists. split.
  { apply cell_visualize_spec. do 3 eexists. projections.
    repeat (split; [eassumption|]). reflexivity. }
  apply bind_inr. eexists (_, _), _. split.
  { apply cell_rnn_roc_spec. do 2 eexists. projections.
    repeat (split; [eassumption|]). reflexivity. }
  apply bind_inr. eexists (_, _, _, _), _. split.
  { apply cell_baselines_spec. do 4 eexists. projections.
    repeat (split; [eassumption|]). reflexivity. }
  apply cell_plot_rocs_spec.
  unfold final, run_figures, run_events, v_roc_ops, v_ix, stream_at_draw,
    keras_calls.
  projections. rewrite ?seeded_app, ?seeded_two.
  apply world_ext; cbn [files entropy figures trace];
    rewrite <- ?app_assoc; reflexivity.
Qed.

(** ** Numbers *)


Lemma wrap64_least : wrap64 (- int64_min) = int64_min.
Proof. reflexivity. Qed.











(** ** The forward pass *)


Lemma fadd_nan_l x : fadd NaN x = NaN.
Proof. reflexivity. Qed.

Lemma fadd_nan_r x : fadd x NaN = NaN.
Proof. by destruct x as [|[]|]. Qed.

Lemma fmul_nan_l x : fmul NaN x = NaN.
Proof. reflexivity. Qed.

Lemma fmul_nan_r x : fmul x NaN = NaN.
Proof. by destruct x as [|[]|]. Qed.







Lemma mapM_forward ws F xss :
  mapM (Keras.forward ws (network F)) xss = Some (map (network_forward ws) xss).
Proof.
  apply mapM_Some. induction xss as [|xs xss IH]; constructor; auto.
Qed.

(** What [conform] does to an array: the elements stay, and the shape stays,
    loses a last axis of length one, or gains one. *)
Lemma conform_inv F X X' :
  Keras.conform F X = Some X' ->
  nd_data X' = nd_data X /\
  exists n t f,
    nd_shape X' = [n; t; f] /\
    (nd_shape X = [n; t; f] \/ nd_shape X = [n; t; f; 1]
     \/ (nd_shape X = [n; t] /\ f = 1 /\ F = 1)).
Proof.
  unfold Keras.conform. destruct X as [s d]. cbn [nd_shape nd_data].
  destruct s as [|n [|t [|f [|k [|]]]]]; try discriminate.
  - destruct (decide (F = 1)) as [->|]; [|discriminate].
    intros [= <-]. split; [reflexivity|]. exists n, t, 1. split; [reflexivity|].
    right. right. done.
  - intros [= <-]. split; [reflexivity|]. exists n, t, f. split; [reflexivity|].
    by left.
  - destruct k as [|[|k]]; try discriminate.
    intros [= <-]. split; [reflexivity|]. exists n, t, f. split; [reflexivity|].
    right. by left.
  - destruct k as [|[|k]]; discriminate.
Qed.

Lemma conform_three F X n t f :
  nd_shape X = [n; t; f] -> Keras.conform F X = Some X.
Proof. intros Hs. unfold Keras.conform. rewrite Hs. reflexivity. Qed.

(** [predict] on the constructed network: when it returns and what. *)
Lemma predict_network ws F X p :
  Keras.predict (trained F ws) X = Some p <->
  exists X' n t,
    Keras.conform F X = Some X' /\ nd_shape X' = [n; t; F] /\
    0 < n /\ 0 < t /\ p = predicted ws n t F (nd_data X).
Proof.
  unfold Keras.predict, trained, predicted. cbn [Keras.m_layers Keras.m_weights].
  cbn [network Keras.input_dim mbind option_bind].
  destruct (Keras.conform F X) as [X'|] eqn:HX; cbn [mbind option_bind];
    [|split; [discriminate | intros (? & ? & ? & ? & _); discriminate]].
  destruct (conform_inv F X X' HX) as (Hd & n & t & f & Hs & _).
  rewrite Hs, Hd.
  destruct (decide (0 < n /\ 0 < t /\ f = F)) as [(Hn & Ht & ->)|Hno].
  - change (mapM _ ?l) with (mapM (Keras.forward ws (network F)) l).
    rewrite mapM_forward. cbn [mbind option_bind Keras.output_dim fold_left
                                 Keras.layer_units].
    split.
    + intros [= <-]. exists X', n, t. done.
    + intros (? & ? & ? & [= <-] & Hs' & _ & _ & ->).
      rewrite Hs in Hs'. injection Hs' as <- <-. reflexivity.
  - split; [discriminate|].
    intros (? & ? & ? & [= <-] & Hs' & ? & ? & _).
    rewrite Hs in Hs'. injection Hs' as <- <- <-. exfalso. apply Hno. done.
Qed.

(** On an array of three axes nothing is reshaped. *)
Lemma predict_network_three ws F X n t :
  nd_shape X = [n; t; F] -> 0 < n -> 0 < t ->
  Keras.predict (trained F ws) X = Some (predicted ws n t F (nd_data X)).
Proof.
  intros Hs Hn Ht. apply predict_network. exists X, n, t.
  split; [by apply (conform_three F X n t F)|]. done.
Qed.

(** The first axis of what [predict] accepts is the batch. *)
Lemma predict_batch ws F X p :
  Keras.predict (trained F ws) X = Some p ->
  exists n t, shape_at X 0 = inr n /\ nd_shape p = [n; t; 1] /\ 0 < n /\ 0 < t.
Proof.
  intros (X' & n & t & HX & Hs & Hn & Ht & ->)%predict_network.
  exists n, t. split; [|done].
  destruct (conform_inv F X X' HX) as (_ & n' & t' & f' & Hs' & Hcases).
  rewrite Hs in Hs'. injection Hs' as <- <- <-.
  unfold shape_at. destruct Hcases as [->|[->|[-> _]]]; reflexivity.
Qed.




(** [predict] rejects an empty batch, an empty time axis and another feature
    width. *)
Lemma predict_rejects ws F X n t f :
  nd_shape X = [n; t; f] -> n = 0 \/ t = 0 \/ f <> F ->
  Keras.predict (trained F ws) X = None.
Proof.
  intros Hs Hbad. destruct (Keras.predict (trained F ws) X) as [p|] eqn:Hp;
    [|reflexivity].
  apply predict_network in Hp as (X' & n' & t' & HX & Hs' & Hn & Ht & _).
  rewrite (conform_three F X n t f Hs) in HX. injection HX as <-.
  rewrite Hs in Hs'. injection Hs' as <- <- <-. lia.
Qed.

(** ** Indexing *)

Lemma norm_index_lt n i k : norm_index n i = Some k -> k < n.
Proof.
  unfold norm_index.
  destruct ((0 <=? i)%Z && (i <? Z.of_nat n)%Z) eqn:E1;
    [apply andb_true_iff in E1 as [? ?]; intros [= <-]; lia|].
  destruct ((- Z.of_nat n <=? i)%Z && (i <? 0)%Z) eqn:E2;
    [apply andb_true_iff in E2 as [? ?]; intros [= <-]; lia|].
  discriminate.
Qed.

Lemma norm_index_nat n (k : nat) : k < n -> norm_index n (Z.of_nat k) = Some k.
Proof.
  intros H. unfold norm_index.
  destruct ((0 <=? Z.of_nat k)%Z && (Z.of_nat k <? Z.of_nat n)%Z) eqn:E.
  - f_equal. lia.
  - apply andb_false_iff in E as [E|E]; lia.
Qed.

Lemma norm_index_last n : 0 < n -> norm_index n (-1) = Some (n - 1).
Proof.
  intros H. unfold norm_index. cbn [Z.leb Z.compare andb].
  destruct ((- Z.of_nat n <=? -1)%Z && (-1 <? 0)%Z) eqn:E.
  - f_equal. lia.
  - apply andb_false_iff in E as [E|E]; lia.
Qed.

Lemma norm_index_empty i : norm_index 0 i = None.
Proof.
  destruct (norm_index 0 i) as [k|] eqn:E; [|reflexivity].
  apply norm_index_lt in E. lia.
Qed.

Lemma map_flat_map' {A B C} (h : B -> C) (g : A -> list B) (l : list A) :
  map h (flat_map g l) = flat_map (fun x => map h (g x)) l.
Proof.
  induction l as [|x l IH]; [reflexivity|].
  cbn [flat_map]. rewrite map_app, IH. reflexivity.
Qed.

Lemma flat_map_single {A B} (g : A -> B) (l : list A) :
  flat_map (fun x => [g x]) l = map g l.
Proof. induction l as [|x l IH]; [reflexivity|]. cbn. by f_equal. Qed.

(** The offsets of a full slice of the last axis. *)
Lemma last_axis_offsets f :
  flat_map (fun c => map (Nat.add (c * 1)) [0]) (seq 0 f) = seq 0 f.
Proof.
  cbn [map]. rewrite flat_map_single. rewrite <- (List.map_id (seq 0 f)) at 2.
  apply List.map_ext. intros c. lia.
Qed.

Lemma slice_full n : slice_indices n None None = seq 0 n.
Proof. unfold slice_indices. cbn [from_option]. by rewrite Nat.sub_0_r. Qed.

Lemma getitem_time a n t f j k :
  nd_shape a = [n; t; f] -> norm_index t j = Some k ->
  getitem a [full; Int j; full] =
  inr (NdArray [n; f]
         (flat_map (fun i => map (fun c => get3 t f (nd_data a) i k c) (seq 0 f))
            (seq 0 n))).
Proof.
  intros Hs Hk. unfold getitem, full. rewrite Hs. cbn [select]. rewrite Hk.
  rewrite !slice_full, !length_seq.
  cbn [nd_size fold_right]. rewrite last_axis_offsets.
  do 2 f_equal. rewrite map_flat_map'. apply flat_map_ext. intros i.
  rewrite !map_map. apply List.map_ext. intros c. unfold get3. f_equal. lia.
Qed.

(** Indexing the time axis needs at least three axes and an index within the
    time axis. *)
Lemma getitem_time_inv a j b :
  getitem a [full; Int j; full] = inr b ->
  exists n t s k, nd_shape a = n :: t :: s /\ s <> [] /\ norm_index t j = Some k.
Proof.
  unfold getitem, full. destruct (nd_shape a) as [|n [|t [|f s]]]; cbn [select].
  - discriminate.
  - discriminate.
  - destruct (norm_index t j); discriminate.
  - destruct (norm_index t j) as [k|] eqn:E.
    + intros _. exists n, t, (f :: s), k. done.
    + discriminate.
Qed.

Lemma getitem_time_empty a n f j :
  nd_shape a = [n; 0; f] -> getitem a [full; Int j; full] = inl IndexError.
Proof.
  intros Hs. unfold getitem, full. rewrite Hs. cbn [select].
  rewrite norm_index_empty. reflexivity.
Qed.

(** One encounter, timesteps [1:50], every feature. *)
Lemma getitem_encounter a n t f ix i :
  nd_shape a = [n; t; f] -> norm_index n ix = Some i ->
  getitem a [Int ix; Slice (Some 1%Z) (Some 50%Z); full] =
  inr (NdArray [length (slice_indices t (Some 1%Z) (Some 50%Z)); f]
         (flat_map (fun j => map (fun c => get3 t f (nd_data a) i j c) (seq 0 f))
            (slice_indices t (Some 1%Z) (Some 50%Z)))).
Proof.
  intros Hs Hi. unfold getitem, full. rewrite Hs. cbn [select]. rewrite Hi.
  rewrite !slice_full, !length_seq.
  cbn [nd_size fold_right]. rewrite last_axis_offsets.
  do 2 f_equal. rewrite map_map, map_flat_map'. apply flat_map_ext. intros j.
  rewrite !map_map. apply List.map_ext. intros c. unfold get3. f_equal. lia.
Qed.

(** The same with the last axis left out of the index. *)
Lemma getitem_encounter_short a n t f ix :
  nd_shape a = [n; t; f] ->
  getitem a [Int ix; Slice (Some 1%Z) (Some 50%Z)] =
  getitem a [Int ix; Slice (Some 1%Z) (Some 50%Z); full].
Proof.
  intros Hs. unfold getitem, full. rewrite Hs. cbn [select].
  rewrite !slice_full, !length_seq. reflexivity.
Qed.

Lemma squeeze_data a : nd_data (squeeze a) = nd_data a.
Proof. reflexivity. Qed.

Lemma lookup_seq_map {A} (g : nat -> A) n i :
  i < n -> map g (seq 0 n) !! i = Some (g i).
Proof.
  intros H. rewrite list_lookup_fmap, lookup_seq_lt by exact H. reflexivity.
Qed.

(** With a last axis of width one, the slice of one timestep holds one value
    per encounter. *)
Lemma getitem_time_column a n t j k b :
  nd_shape a = [n; t; 1] -> norm_index t j = Some k ->
  getitem a [full; Int j; full] = inr b ->
  nd_data (squeeze b) = map (fun i => get3 t 1 (nd_data a) i k 0) (seq 0 n).
Proof.
  intros Hs Hk Hb. rewrite (getitem_time a n t 1 j k Hs Hk) in Hb.
  injection Hb as <-. cbn [squeeze nd_data seq map]. apply flat_map_single.
Qed.

(** ** Every run follows the script *)

Lemma kinds_app evs1 evs2 : kinds (evs1 ++ evs2) = kinds evs1 ++ kinds evs2.
Proof. apply map_app. Qed.

Lemma scripted_ret {A} (a : A) : scripted [] (mret a : M A).
Proof.
  intros w. exists []. cbn. split; [by rewrite app_nil_r|]. split; [done | constructor].
Qed.

Lemma scripted_call {A} c (sem : world -> (exn + A) * world) :
  (forall w, trace (snd (sem w)) = trace w) ->
  scripted [kind_of c] (do_call c sem).
Proof.
  intros Hsem w. specialize (Hsem w). unfold do_call.
  destruct (sem w) as [[e|a] w1]; cbn [fst snd trace log] in *; rewrite Hsem.
  - exists [Event c (Some e)]. split; [done|]. exists [], c.
    split; [done|]. split; [constructor | done].
  - exists [Event c None]. split; [done|]. split; [done|].
    constructor; [done | constructor].
Qed.

Lemma scripted_bind {A B} s1 s2 (m : M A) (k : A -> M B) :
  scripted s1 m -> (forall a, scripted s2 (k a)) -> scripted (s1 ++ s2) (m ≫= k).
Proof.
  intros Hm Hk w. destruct (Hm w) as (evs1 & Ht1 & H1).
  unfold mbind, M_bind. destruct (m w) as [[e|a] w1]; cbn [fst snd] in *.
  - exists evs1. split; [done|]. destruct H1 as (pre & c & -> & Hpre & Hs).
    exists pre, c. split; [done|]. split; [done|]. by apply prefix_app_r.
  - destruct H1 as [Hs1 Hok1]. destruct (Hk a w1) as (evs2 & Ht2 & H2).
    exists (evs1 ++ evs2). split; [by rewrite Ht2, Ht1, app_assoc|].
    destruct (fst (k a w1)) as [e|b].
    + destruct H2 as (pre & c & -> & Hpre & Hs).
      exists (evs1 ++ pre), c. split; [by rewrite app_assoc|].
      split; [by apply Forall_app|]. rewrite kinds_app, Hs1. by apply prefix_app.
    + destruct H2 as [Hs2 Hok2]. split; [by rewrite kinds_app, Hs1, Hs2|].
      by apply Forall_app.
Qed.

Lemma scripted_call_bind {A B} c (sem : world -> (exn + A) * world)
    (k : A -> M B) kd s :
  kind_of c = kd ->
  (forall w, trace (snd (sem w)) = trace w) ->
  (forall a, scripted s (k a)) ->
  scripted (kd :: s) (do_call c sem ≫= k).
Proof.
  intros <- Hsem Hk. apply (scripted_bind [kind_of c] s); [by apply scripted_call | done].
Qed.

Lemma scripted_call_last {A} c (sem : world -> (exn + A) * world) kd :
  kind_of c = kd ->
  (forall w, trace (snd (sem w)) = trace w) ->
  scripted [kd] (do_call c sem).
Proof. intros <-. apply scripted_call. Qed.

Ltac keeps_trace :=
  intros ?; cbn [fst snd trace set_figures set_entropy];
  repeat case_match; reflexivity.

Ltac follow :=
  repeat lazymatch goal with
         | |- scripted _ (mret _) => apply scripted_ret
         | |- scripted _ (_ ≫= _) =>
             apply scripted_call_bind; [reflexivity | keeps_trace | intros ?]
         | |- scripted _ (do_call _ _) =>
             apply scripted_call_last; [reflexivity | keeps_trace]
         end.

Lemma cell_load_scripted : scripted load_script cell_load.
Proof. unfold cell_load, np_load, load_script. follow. Qed.

Lemma cell_construct_scripted L X : scripted construct_script (cell_construct L X).
Proof.
  unfold cell_construct, shape, Input, apply, Model, compile, summary, pure_call,
    keras_call, construct_script.
  follow.
Qed.

Lemma cell_train_scripted L m X y : scripted [K_fit 128 5] (cell_train L m X y).
Proof. unfold cell_train, fit, keras_call. follow. Qed.

Lemma cell_evaluate_scripted L m X : scripted [K_predict] (cell_evaluate L m X).
Proof. unfold cell_evaluate, predict, keras_call. follow. Qed.

Lemma cell_shape_scripted p : scripted [K_display] (cell_shape p).
Proof. unfold cell_shape, display, pure_call. follow. Qed.

Lemma cell_visualize_scripted X p : scripted visualize_script (cell_visualize X p).
Proof.
  unfold cell_visualize, shape, randint, plt_subplots, unpack2, item, ax_call,
    plt_call, draw_call, pure_call, visualize_script.
  follow. destruct a2. follow.
Qed.

Lemma cell_rnn_roc_scripted L y p : scripted rnn_roc_script (cell_rnn_roc L y p).
Proof.
  unfold cell_rnn_roc, item, roc_curve, auc, pure_call, rnn_roc_script. follow.
Qed.

Lemma cell_baselines_scripted L : scripted baselines_script (cell_baselines L).
Proof.
  unfold cell_baselines, read_csv, column, roc_curve, auc, pure_call,
    baselines_script.
  follow.
Qed.

Lemma cell_plot_rocs_scripted r1 r2 r3 a1 a2 a3 :
  scripted plot_rocs_script (cell_plot_rocs r1 r2 r3 a1 a2 a3).
Proof.
  unfold cell_plot_rocs, plt_figure, plt_call, plt_tight_layout, draw_call,
    plot_rocs_script.
  cbn [repeat app]. follow.
Qed.

Lemma notebook_scripted L : scripted script (notebook L).
Proof.
  unfold notebook, script.
  apply scripted_bind; [apply cell_load_scripted | intros [[[X_train y_train] X_valid] y_valid]].
  apply scripted_bind; [apply cell_construct_scripted | intros model].
  apply scripted_bind; [apply cell_train_scripted | intros [history model']].
  apply scripted_bind; [apply cell_evaluate_scripted | intros preds].
  apply scripted_bind; [apply cell_shape_scripted | intros _].
  apply scripted_bind; [apply cell_visualize_scripted | intros _].
  apply scripted_bind; [apply cell_rnn_roc_scripted | intros [rnn_roc rnn_auc]].
  apply scripted_bind; [apply cell_baselines_scripted | intros [[[? ?] ?] ?]].
  apply cell_plot_rocs_scripted.
Qed.

(** ** When the notebook runs to completion *)

Lemma drawn_range en n :
  (0 <= Z.of_nat n - 1)%Z -> (0 <= drawn en n < Z.of_nat n)%Z.
Proof.
  intros H. unfold drawn.
  replace (Z.of_nat n - 1 - 0 + 1)%Z with (Z.of_nat n) by lia.
  pose proof (Z.mod_pos_bound (Z.of_nat (hd 0 en)) (Z.of_nat n)). lia.
Qed.

Lemma drawn_index en n :
  (0 <= Z.of_nat n - 1)%Z -> norm_index n (drawn en n) = Some (Z.to_nat (drawn en n)).
Proof.
  intros H. pose proof (drawn_range en n H) as Hr.
  rewrite <- (Z2Nat.id (drawn en n)) at 1 by lia.
  apply norm_index_nat. lia.
Qed.

Lemma shape_at_first a n s : nd_shape a = n :: s -> shape_at a 0 = inr n.
Proof. intros Hs. unfold shape_at. rewrite Hs. reflexivity. Qed.

Section Runs.

Context (L : library) (w : world).
Context (X_train y_train X_valid y_valid : ndarray).
Context (features n t ny ty fy : nat).
Context (history : list float) (ws : Keras.weights).
Context (index : dataframe) (mortrep pim2 prism3 : list scalar).
Context (rnn_roc pim2_roc prism3_roc : roc).
Context (rnn_auc pim2_auc prism3_auc : float).

Hypothesis HXt : loaded w "X_train_prepared.npy" X_train.
Hypothesis Hyt : loaded w "y_train_prepared.npy" y_train.
Hypothesis HXv : loaded w "X_valid_prepared.npy" X_valid.
Hypothesis Hyv : loaded w "y_valid_prepared.npy" y_valid.
Hypothesis Hfeatures : shape_at X_train (-1) = inr features.
Hypothesis HXv_shape : nd_shape X_valid = [n; t; features].
Hypothesis Hn : 0 < n.
Hypothesis Ht : 0 < t.
Hypothesis Hyv_shape : nd_shape y_valid = [ny; ty; fy].
Hypothesis Hty : 0 < ty.
Hypothesis Hfit :
  lib_fit L (constructed L features) X_train y_train 128 5 = inr (history, ws).
Hypothesis Hroc :
  forall first last,
    getitem y_valid [full; Int 0; full] = inr first ->
    getitem (predicted ws n t features (nd_data X_valid)) [full; Int (-1); full]
      = inr last ->
    lib_roc_curve L (squeeze first) (squeeze last) = inr rnn_roc.
Hypothesis Hauc : lib_auc L (fpr rnn_roc) (tpr rnn_roc) = inr rnn_auc.
Hypothesis Hcsv : files w !! csv_path = Some (CsvFile index).
Hypothesis Hmortrep : df_columns index !! "mortalityResponse"%string = Some mortrep.
Hypothesis Hpim2 : df_columns index !! "PIM2"%string = Some pim2.
Hypothesis Hprism3 : df_columns index !! "PRISM3"%string = Some prism3.
Hypothesis Hroc2 :
  lib_roc_curve L (series mortrep) (nd_neg (series pim2)) = inr pim2_roc.
Hypothesis Hroc3 :
  lib_roc_curve L (series mortrep) (nd_neg (series prism3)) = inr prism3_roc.
Hypothesis Hauc2 : lib_auc L (fpr pim2_roc) (tpr pim2_roc) = inr pim2_auc.
Hypothesis Hauc3 : lib_auc L (fpr prism3_roc) (tpr prism3_roc) = inr prism3_auc.

(** Under these conditions on the files and on what the libraries answer
    in this run, every cell runs. *)
Lemma notebook_runs :
  exists v, complete L w v /\ notebook L w = (inr tt, final L w v) /\
    v_X_train v = X_train /\ v_X_valid v = X_valid /\ v_y_valid v = y_valid /\
    v_trained v = ws /\ v_numencnt v = n /\
    v_preds v = predicted ws n t features (nd_data X_valid) /\
    v_pim2 v = pim2 /\ v_prism3 v = prism3 /\
    v_rnn_auc v = rnn_auc /\ v_pim2_auc v = pim2_auc /\
    v_prism3_auc v = prism3_auc.
Proof using All.
  set (preds := predicted ws n t features (nd_data X_valid)).
  set (calls := construct_calls features
                  ++ [KerasFit X_train y_train 128 5 1; KerasPredict X_valid]).
  set (ix := drawn (seeded L calls (entropy w)) n).
  assert (0 <= Z.of_nat n - 1)%Z as Hn' by lia.
  pose proof (drawn_index (seeded L calls (entropy w)) n Hn') as Hix. fold ix in Hix.
  pose proof (getitem_encounter X_valid n t features ix _ HXv_shape Hix) as Hobs.
  pose proof (getitem_encounter preds n t 1 ix _ eq_refl Hix) as Hline.
  rewrite <- (getitem_encounter_short preds n t 1 ix eq_refl) in Hline.
  pose proof (getitem_time y_valid ny ty fy 0 0 Hyv_shape (norm_index_nat ty 0 Hty))
    as Hfirst.
  pose proof (getitem_time preds n t 1 (-1) _ eq_refl (norm_index_last t Ht)) as Hlast.
  pose proof (Hroc _ _ Hfirst Hlast) as Hr1.
  match type of Hobs with _ = inr ?x => set (obs := x) in * end.
  match type of Hline with _ = inr ?x => set (line := x) in * end.
  match type of Hfirst with _ = inr ?x => set (first := x) in * end.
  match type of Hlast with _ = inr ?x => set (last := x) in * end.
  set (v := Namespace X_train y_train X_valid y_valid features history ws preds n
              obs line first last rnn_roc rnn_auc index mortrep pim2 prism3
              pim2_roc prism3_roc pim2_auc prism3_auc).
  assert (complete L w v) as Hv.
  { unfold complete, label, prediction, v_ix, stream_at_draw, keras_calls, v.
    projections. fold calls. fold ix.
    split_and!; try first [assumption | lia].
    - by apply predict_network_three.
    - by apply (shape_at_first _ _ _ HXv_shape). }
  exists v. split; [exact Hv|]. split; [by apply complete_notebook|].
  repeat split.
Qed.

End Runs.

Lemma demo_trapz :
  Demo.trapz [real 0; real 1] [real 0; real 1] = Real (1 / 2).
Proof. cbn. f_equal. lra. Qed.

(** ** The demo world *)

Ltac demo_world :=
  lazymatch goal with
  | |- lib_auc _ _ _ = _ => cbn [lib_auc Demo.lib fpr tpr]; by rewrite demo_trapz
  | |- loaded _ _ _ => split; reflexivity
  | |- _ < _ => lia
  | |- forall _, _ => intros; reflexivity
  | |- _ => reflexivity
  end.

Lemma demo_runs :
  exists v, complete Demo.lib Demo.start v /\
            notebook Demo.lib Demo.start = (inr tt, final Demo.lib Demo.start v) /\
            v_X_valid v = Demo.X_valid /\ v_numencnt v = 2 /\
            v_pim2 v = map real [-1; -3]%R /\
            v_rnn_auc v = Real (1 / 2) /\ v_pim2_auc v = Real (1 / 2) /\
            v_prism3_auc v = Real (1 / 2).
Proof.
  destruct (notebook_runs Demo.lib Demo.start Demo.X_train Demo.y_train Demo.X_valid
              Demo.y_valid 1 2 3 2 3 1 [] Demo.weights Demo.scores
              (map Int64 [1; 0]%Z) (map real [-1; -3]%R) (map Int64 [5; 2]%Z)
              (Roc [real 0; real 1] [real 0; real 1] [real 1; real 0])
              (Roc [real 0; real 1] [real 0; real 1] [real 1; real 0])
              (Roc [real 0; real 1] [real 0; real 1] [real 1; real 0])
              (Real (1 / 2)) (Real (1 / 2)) (Real (1 / 2)))
    as (v & Hv & Hrun & _ & HXv & _ & _ & Hn & _ & Hp2 & _ & Ha1 & Ha2 & Ha3);
    try demo_world.
  exists v. repeat (split; [assumption|]). assumption.
Qed.


(** The world whose validation inputs have a fourth axis of length one runs
    as well: [predict] drops that axis. *)
Lemma fourth_axis_runs :
  exists v, complete Demo.lib Demo.start_4d v /\
            notebook Demo.lib Demo.start_4d
              = (inr tt, final Demo.lib Demo.start_4d v) /\
            nd_shape (v_X_valid v) = [2; 3; 1; 1] /\
            nd_shape (v_preds v) = [2; 3; 1].
Proof.
  eexists (Namespace Demo.X_train Demo.y_train Demo.X_valid_4d Demo.y_valid 1 []
             Demo.weights (predicted Demo.weights 2 3 1 (nd_data Demo.X_valid_4d))
             2 _ _ _ _
             (Roc [real 0; real 1] [real 0; real 1] [real 1; real 0]) (Real (1 / 2))
             Demo.scores (map Int64 [1; 0]%Z) (map real [-1; -3]%R)
             (map Int64 [5; 2]%Z)
             (Roc [real 0; real 1] [real 0; real 1] [real 1; real 0])
             (Roc [real 0; real 1] [real 0; real 1] [real 1; real 0])
             (Real (1 / 2)) (Real (1 / 2))).
  match goal with
  | |- complete ?L ?w ?v /\ _ => assert (complete L w v) as Hv
  end.
  { unfold complete, v_ix, stream_at_draw, keras_calls. projections.
    split_and!.
    all: lazymatch goal with
         | |- Keras.predict _ _ = _ =>
             apply predict_network;
             exists (NdArray [2; 3; 1] (nd_data Demo.X_valid_4d)), 2, 3;
             split; [reflexivity|]; repeat split; lia
         | |- (_ <= _)%Z => cbn; lia
         | |- getitem _ _ = _ => reflexivity
         | |- _ => demo_world
         end. }
  split; [exact Hv|]. split; [by apply complete_notebook|]. split; reflexivity.
Qed.

(** ** The definitions on small inputs *)

Example os_path_join_csv :
  os_path_join "/dli/task/csv" "pim2prism3.csv" = "/dli/task/csv/pim2prism3.csv"%string.
Proof. reflexivity. Qed.

Example norm_index_negative : norm_index 3 (-1) = Some 2.
Proof. reflexivity. Qed.

Example norm_index_outside : norm_index 3 3 = None.
Proof. reflexivity. Qed.

Example slice_of_short_axis : slice_indices 3 (Some 1%Z) (Some 50%Z) = [1; 2].
Proof. reflexivity. Qed.

Example getitem_first_timestep :
  getitem (NdArray [2; 2; 1] (map Int64 [10; 11; 20; 21]%Z)) [full; Int 0; full]
  = inr (NdArray [2; 1] (map Int64 [10; 20]%Z)).
Proof. reflexivity. Qed.

Example getitem_last_timestep :
  getitem (NdArray [2; 2; 1] (map Int64 [10; 11; 20; 21]%Z)) [full; Int (-1); full]
  = inr (NdArray [2; 1] (map Int64 [11; 21]%Z)).
Proof. reflexivity. Qed.

Example getitem_no_timestep :
  getitem (NdArray [2; 0; 1] []) [full; Int 0; full] = inl IndexError.
Proof. reflexivity. Qed.

Example getitem_one_encounter :
  getitem (NdArray [2; 3; 1] (map Int64 [10; 11; 12; 20; 21; 22]%Z))
    [Int 1; Slice (Some 1%Z) (Some 50%Z)]
  = inr (NdArray [2; 1] (map Int64 [21; 22]%Z)).
Proof. reflexivity. Qed.

Example squeeze_column :
  squeeze (NdArray [2; 1] (map Int64 [10; 20]%Z)) = NdArray [2] (map Int64 [10; 20]%Z).
Proof. reflexivity. Qed.

Example transpose_2_by_3 :
  transpose (NdArray [2; 3] (map Int64 [1; 2; 3; 4; 5; 6]%Z))
  = NdArray [3; 2] (map Int64 [1; 4; 2; 5; 3; 6]%Z).
Proof. reflexivity. Qed.

Example negation_of_integers :
  nd_neg (series (map Int64 [5; -2; int64_min]%Z))
  = series (map Int64 [-5; 2; int64_min]%Z).
Proof. reflexivity. Qed.

Example negation_of_floats :
  nd_data (nd_neg (series [Float NaN; Float (Infinite false)]))
  = [Float NaN; Float (Infinite true)].
Proof. reflexivity. Qed.

Example nan_is_not_masked : Keras.unmasked 0 [NaN] = true.
Proof. reflexivity. Qed.

Example conform_fourth_axis :
  Keras.conform 3 (NdArray [2; 4; 3; 1] []) = Some (NdArray [2; 4; 3] []).
Proof. reflexivity. Qed.

Example conform_two_axes :
  Keras.conform 1 (NdArray [2; 4] []) = Some (NdArray [2; 4; 1] [])
  /\ Keras.conform 3 (NdArray [2; 4] []) = None.
Proof. split; reflexivity. Qed.


Example format_tie_to_even : format_fixed 3 (Real (1 / 16)) = "0.062"%string.
Proof.
  unfold format_fixed, is_negative, round_half_even.
  destruct (Rlt_dec (1 / 16) 0) as [H|_]; [lra|].
  rewrite Rabs_pos_eq by lra.
  replace (Int_part (1 / 16 * 10 ^ 3)) with 62%Z
    by (apply Int_part_spec; cbn; lra).
  destruct (Rlt_dec _ _) as [H|_]; [cbn in H; lra|].
  destruct (Rlt_dec _ _) as [H|_]; [cbn in H; lra|].
  reflexivity.
Qed.

Example format_special :
  format_fixed 3 NaN = "nan"%string /\ format_fixed 3 (Infinite true) = "-inf"%string.
Proof. split; reflexivity. Qed.

Example drawn_second_encounter : drawn [3] 2 = 1%Z.
Proof. reflexivity. Qed.

Example seeds_before_the_draw :
  seeded Demo.lib (construct_calls 1) [8; 1; 6; 2; 3] = [3].
Proof. reflexivity. Qed.

Example two_panels :
  figures (snd (plt_subplots 2 1 (fresh ∅ []))) = [Figure None [[]; []] false].
Proof. reflexivity. Qed.

Example predict_no_timestep :
  Keras.predict (trained 1 Demo.weights) (NdArray [2; 0; 1] []) = None.
Proof. reflexivity. Qed.

Example predict_no_encounter :
  Keras.predict (trained 1 Demo.weights) (NdArray [0; 3; 1] []) = None.
Proof. reflexivity. Qed.

Example predict_two_axes :
  nd_shape <$> Keras.predict (trained 1 Demo.weights) (NdArray [2; 1] [real 1; real 0])
  = Some [2; 1; 1].
Proof. reflexivity. Qed.
(** ** Properties of the notebook *)





(** ** What a run leaves in the log *)

Lemma complete_run L w w' :
  notebook L w = (inr tt, w') ->
  exists v, complete L w v /\
    trace w' = trace w ++ run_events (length (figures w)) (v_ix L w v) v /\
    figures w' = figures w ++ run_figures v.
Proof.
  intros (v & Hv & ->)%notebook_complete. exists v. split; [exact Hv|].
  split; reflexivity.
Qed.

Lemma any_run L w :
  exists evs, trace (snd (notebook L w)) = trace w ++ evs /\
              kinds evs `prefix_of` script.
Proof.
  destruct (notebook_scripted L w) as (evs & Ht & H). exists evs. split; [done|].
  destruct (fst (notebook L w)).
  - by destruct H as (? & ? & _ & _ & ?).
  - destruct H as [-> _]. done.
Qed.

Lemma filter_prefix {A} (P : A -> bool) (l1 l2 : list A) :
  l1 `prefix_of` l2 -> List.filter P l1 `prefix_of` List.filter P l2.
Proof. intros [k ->]. rewrite List.filter_app. by apply prefix_app_r. Qed.

(** C3. Constructing the network returns whenever [X_train] has at least one
    axis, and yields, whatever the library, the world and the array, the same
    chain of layers: the input layer, the masking layer, one LSTM layer of 128
    units that returns sequences, and one time-distributed dense layer of one
    sigmoid unit.  The two layers that carry parameters are the LSTM layer
    followed by the dense layer, and the only thing read from the data is the
    width of the last axis of [X_train]: two constructions from arrays of the
    same feature width give the same layers. *)
Theorem fixed_architecture L X_train w :
  (nd_shape X_train <> [] ->
   exists model w', cell_construct L X_train w = (inr model, w'))
  /\ forall model w',
       cell_construct L X_train w = (inr model, w') ->
       (exists features,
          shape_at X_train (-1) = inr features /\
          Keras.m_layers model =
            [ Keras.InputLayer [None; Some features] "input";
              Keras.Masking 0 "input_masked";
              Keras.LSTM 128 (Keras.LstmKwargs 0.25 0.1 true 2) "lstm1";
              Keras.TimeDistributed (Keras.Dense 1 Keras.Sigmoid) "output" ] /\
          List.filter Keras.has_weights (Keras.m_layers model) =
            [ Keras.LSTM 128 (Keras.LstmKwargs 0.25 0.1 true 2) "lstm1";
              Keras.TimeDistributed (Keras.Dense 1 Keras.Sigmoid) "output" ])
       /\ forall L2 X2 w2 model2 w2',
            cell_construct L2 X2 w2 = (inr model2, w2') ->
            shape_at X_train (-1) = shape_at X2 (-1) ->
            Keras.m_layers model = Keras.m_layers model2.
Proof.
  split.
  - intros Hne. assert (0 < length (nd_shape X_train)) as Hlen.
    { destruct (nd_shape X_train); [done | cbn; lia]. }
    do 2 eexists. apply cell_construct_spec. eexists. split.
    + unfold shape_at. rewrite (norm_index_last _ Hlen). reflexivity.
    + split; reflexivity.
  - intros model w' (F1 & HF1 & -> & _)%cell_construct_spec. split.
    + exists F1. split; [exact HF1|]. split; reflexivity.
    + intros L2 X2 w2 model2 w2' (F2 & HF2 & -> & _)%cell_construct_spec Heq.
      rewrite HF1, HF2 in Heq. injection Heq as ->. reflexivity.
Qed.

Lemma fixed_architecture_witness :
  exists model w',
    cell_construct Demo.lib Demo.X_train Demo.start = (inr model, w') /\
    Keras.m_layers model =
      [ Keras.InputLayer [None; Some 1] "input";
        Keras.Masking 0 "input_masked";
        Keras.LSTM 128 (Keras.LstmKwargs 0.25 0.1 true 2) "lstm1";
        Keras.TimeDistributed (Keras.Dense 1 Keras.Sigmoid) "output" ].
Proof.
  destruct (fixed_architecture Demo.lib Demo.X_train Demo.start) as [Hruns Hlayers].
  destruct Hruns as (model & w' & Hm); [discriminate|].
  exists model, w'. split; [exact Hm|].
  destruct (Hlayers model w' Hm) as [(features & Hf & Hl & _) _].
  injection Hf as <-. exact Hl.
Defined.

Ltac in_events :=
  unfold run_events, load_events, construct_events, visualize_events,
    rnn_roc_events, baseline_events, plot_rocs_events;
  cbn [app In map];
  repeat first [ left; reflexivity | right ].

(** The validation input of a complete run: [predict] accepts it and the
    visualisation cell indexes three of its axes, so it has three axes of the
    network's feature width, or a fourth of length one. *)
Lemma valid_input_shape L w v :
  complete L w v ->
  exists n t,
    nd_shape (v_preds v) = [n; t; 1] /\
    (nd_shape (v_X_valid v) = [n; t; v_features v]
     \/ nd_shape (v_X_valid v) = [n; t; v_features v; 1]).
Proof.
  intros Hv. unfold complete in Hv.
  destruct Hv as (_ & _ & _ & _ & _ & _ & Hp & _ & _ & Hobs & _).
  apply predict_network in Hp as (X' & n & t & HX & Hs & _ & _ & ->).
  exists n, t. split; [reflexivity|].
  destruct (conform_inv _ _ _ HX) as (_ & n' & t' & f' & Hs' & Hcases).
  rewrite Hs in Hs'. injection Hs' as <- <- <-.
  destruct Hcases as [H|[H|[H _]]]; [by left | by right |].
  exfalso. unfold getitem, encounter_index in Hobs. rewrite H in Hobs.
  cbn [app select] in Hobs. destruct (norm_index n (v_ix L w v)); discriminate.
Qed.

(** C4. In every run, complete or not, the array loads happen in the order of
    the four fixed file names and any call that is not an array load comes
    after all four.  A complete run loads exactly these four arrays, each the
    well-formed content of its file, then reads the feature width of
    [X_train] and starts building the model; nothing after that loads an
    array. *)
Theorem four_arrays_loaded L w :
  (exists evs,
     trace (snd (notebook L w)) = trace w ++ evs /\
     List.filter is_load (kinds evs) `prefix_of`
       [ K_load "X_train_prepared.npy"; K_load "y_train_prepared.npy";
         K_load "X_valid_prepared.npy"; K_load "y_valid_prepared.npy" ] /\
     forall before k after,
       kinds evs = before ++ k :: after -> is_load k = false ->
       before = [ K_load "X_train_prepared.npy"; K_load "y_train_prepared.npy";
                  K_load "X_valid_prepared.npy"; K_load "y_valid_prepared.npy" ]
                ++ drop 4 before)
  /\ forall w', notebook L w = (inr tt, w') ->
       exists X_train y_train X_valid y_valid features rest,
         loaded w "X_train_prepared.npy" X_train /\
         loaded w "y_train_prepared.npy" y_train /\
         loaded w "X_valid_prepared.npy" X_valid /\
         loaded w "y_valid_prepared.npy" y_valid /\
         trace w' =
           trace w
           ++ [ ok (NpLoad "X_train_prepared.npy"); ok (NpLoad "y_train_prepared.npy");
                ok (NpLoad "X_valid_prepared.npy"); ok (NpLoad "y_valid_prepared.npy") ]
           ++ [ ok (ShapeAt X_train (-1));
                ok (KerasInput [None; Some features] "input") ]
           ++ rest /\
         List.filter load_call rest = [].
Proof.
  split.
  - destruct (any_run L w) as (evs & Ht & Hp). exists evs. split; [exact Ht|]. split.
    + apply (filter_prefix is_load) in Hp. exact Hp.
    + intros before k after Hk Hload. rewrite Hk in Hp. destruct Hp as [tl Hp].
      rewrite <- app_assoc in Hp. cbn [app] in Hp.
      destruct before as [|a [|b [|c [|d before]]]];
        cbn in Hp; simplify_eq; try discriminate. reflexivity.
  - intros w' (v & Hv & Ht & _)%complete_run.
    destruct Hv as (HXt & Hyt & HXv & Hyv & _).
    exists (v_X_train v), (v_y_train v), (v_X_valid v), (v_y_valid v), (v_features v).
    eexists. repeat (split; [assumption|]). split.
    + rewrite Ht. unfold run_events, load_events, construct_events.
      cbn [app]. reflexivity.
    + reflexivity.
Qed.

Lemma four_arrays_loaded_witness :
  exists w', notebook Demo.lib Demo.start = (inr tt, w') /\
    exists X_train y_train X_valid y_valid features rest,
      loaded Demo.start "X_train_prepared.npy" X_train /\
      loaded Demo.start "y_train_prepared.npy" y_train /\
      loaded Demo.start "X_valid_prepared.npy" X_valid /\
      loaded Demo.start "y_valid_prepared.npy" y_valid /\
      trace w' =
        trace Demo.start
        ++ [ ok (NpLoad "X_train_prepared.npy"); ok (NpLoad "y_train_prepared.npy");
             ok (NpLoad "X_valid_prepared.npy"); ok (NpLoad "y_valid_prepared.npy") ]
        ++ [ ok (ShapeAt X_train (-1));
             ok (KerasInput [None; Some features] "input") ]
        ++ rest /\
      List.filter load_call rest = [].
Proof.
  destruct demo_runs as (v & _ & Hrun & _).
  exists (final Demo.lib Demo.start v). split; [exact Hrun|].
  exact (proj2 (four_arrays_loaded Demo.lib Demo.start) _ Hrun).
Defined.

(** C5. Training is one call of [fit]: a complete run calls it exactly once,
    on the arrays loaded from the two training files, with a batch size of 128,
    5 epochs and verbosity 1; and no run, complete or not, calls it more than
    once or with another batch size or number of epochs. *)
Theorem single_fit L w :
  (exists evs,
     trace (snd (notebook L w)) = trace w ++ evs /\
     List.filter is_fit (kinds evs) `prefix_of` [K_fit 128 5])
  /\ forall w', notebook L w = (inr tt, w') ->
       exists X_train y_train evs,
         loaded w "X_train_prepared.npy" X_train /\
         loaded w "y_train_prepared.npy" y_train /\
         trace w' = trace w ++ evs /\
         List.filter fit_call evs = [ok (KerasFit X_train y_train 128 5 1)].
Proof.
  split.
  - destruct (any_run L w) as (evs & Ht & Hp). exists evs. split; [exact Ht|].
    apply (filter_prefix is_fit) in Hp. exact Hp.
  - intros w' (v & Hv & Ht & _)%complete_run.
    destruct Hv as (HXt & Hyt & _).
    exists (v_X_train v), (v_y_train v). eexists.
    split; [assumption|]. split; [assumption|]. split; [exact Ht|]. reflexivity.
Qed.

Lemma single_fit_witness :
  exists w', notebook Demo.lib Demo.start = (inr tt, w') /\
    exists X_train y_train evs,
      loaded Demo.start "X_train_prepared.npy" X_train /\
      loaded Demo.start "y_train_prepared.npy" y_train /\
      trace w' = trace Demo.start ++ evs /\
      List.filter fit_call evs = [ok (KerasFit X_train y_train 128 5 1)].
Proof.
  destruct demo_runs as (v & _ & Hrun & _).
  exists (final Demo.lib Demo.start v). split; [exact Hrun|].
  exact (proj2 (single_fit Demo.lib Demo.start) _ Hrun).
Defined.

(** C6. Inference is one call of [predict]: a complete run calls it exactly
    once, on the array loaded from the validation inputs file, and the array
    of predictions has as many entries along its first axis as that input has
    encounters (with one value per encounter and timestep); no run, complete
    or not, calls [predict] more than once.  The input of a complete run has
    three axes, or four with a last axis of length one, which [predict]
    drops. *)
Theorem single_predict L w :
  (exists evs,
     trace (snd (notebook L w)) = trace w ++ evs /\
     List.filter is_predict (kinds evs) `prefix_of` [K_predict])
  /\ forall w', notebook L w = (inr tt, w') ->
       exists X_valid preds evs n t f,
         loaded w "X_valid_prepared.npy" X_valid /\
         trace w' = trace w ++ evs /\
         List.filter predict_call evs = [ok (KerasPredict X_valid)] /\
         In (ok (Display (nd_shape preds))) evs /\
         In (ok (GetItem preds [full; Int (-1); full])) evs /\
         (nd_shape X_valid = [n; t; f] \/ nd_shape X_valid = [n; t; f; 1]) /\
         nd_shape preds = [n; t; 1] /\
         shape_at preds 0 = shape_at X_valid 0.
Proof.
  split.
  - destruct (any_run L w) as (evs & Ht & Hp). exists evs. split; [exact Ht|].
    apply (filter_prefix is_predict) in Hp. exact Hp.
  - intros w' (v & Hv & Ht & _)%complete_run.
    pose proof (valid_input_shape L w v Hv) as (n & t & Hshape & Hs).
    destruct Hv as (_ & _ & HXv & _ & _ & _ & Hp & _).
    exists (v_X_valid v), (v_preds v). eexists. exists n, t, (v_features v).
    split; [assumption|]. split; [exact Ht|]. split; [reflexivity|].
    split; [in_events|]. split; [in_events|].
    split; [exact Hs|]. split; [exact Hshape|].
    unfold shape_at. rewrite Hshape. destruct Hs as [->| ->]; reflexivity.
Qed.

Lemma single_predict_witness :
  exists w', notebook Demo.lib Demo.start = (inr tt, w') /\
    exists X_valid preds evs n t f,
      loaded Demo.start "X_valid_prepared.npy" X_valid /\
      trace w' = trace Demo.start ++ evs /\
      List.filter predict_call evs = [ok (KerasPredict X_valid)] /\
      In (ok (Display (nd_shape preds))) evs /\
      In (ok (GetItem preds [full; Int (-1); full])) evs /\
      (nd_shape X_valid = [n; t; f] \/ nd_shape X_valid = [n; t; f; 1]) /\
      nd_shape preds = [n; t; 1] /\
      shape_at preds 0 = shape_at X_valid 0.
Proof.
  destruct demo_runs as (v & _ & Hrun & _).
  exists (final Demo.lib Demo.start v). split; [exact Hrun|].
  exact (proj2 (single_predict Demo.lib Demo.start) _ Hrun).
Defined.

(** The score passed for the network: for each encounter the prediction at the
    last timestep, as [predict] returned it. *)
Lemma prediction_last L w v :
  complete L w v ->
  exists n t,
    nd_shape (v_preds v) = [n; t; 1] /\ 0 < t /\
    forall i, i < n ->
      nd_data (prediction v) !! i
      = Some (get3 t 1 (nd_data (v_preds v)) i (t - 1) 0).
Proof.
  intros Hv. unfold complete in Hv.
  destruct Hv as (_ & _ & _ & _ & _ & _ & Hp & _ & _ & _ & _ & _ & Hlast & _).
  apply predict_batch in Hp as (n & t & _ & Hshape & _ & _).
  pose proof Hlast as Hinv.
  apply getitem_time_inv in Hinv as (n' & t' & s & k & Hs' & _ & Hk).
  rewrite Hshape in Hs'. injection Hs' as <- <- <-.
  assert (0 < t) as Ht by (apply norm_index_lt in Hk; lia).
  rewrite (norm_index_last t Ht) in Hk. injection Hk as <-.
  exists n, t. split; [exact Hshape|]. split; [exact Ht|].
  intros i Hi. unfold prediction.
  rewrite (getitem_time_column _ n t (-1) (t - 1) _ Hshape (norm_index_last t Ht) Hlast).
  rewrite list_lookup_fmap, lookup_seq_lt by exact Hi. reflexivity.
Qed.

(** The label passed with it: for each encounter the value at the first
    timestep of [y_valid]. *)
Lemma label_first L w v :
  complete L w v ->
  exists ny ty s,
    nd_shape (v_y_valid v) = ny :: ty :: s /\ s <> [] /\ 0 < ty /\
    (s = [1] -> forall i, i < ny ->
       nd_data (label v) !! i
       = Some (get3 ty 1 (nd_data (v_y_valid v)) i 0 0)).
Proof.
  intros Hv. unfold complete in Hv.
  destruct Hv as (_ & _ & _ & _ & _ & _ & _ & _ & _ & _ & _ & Hfirst & _).
  pose proof Hfirst as Hinv.
  apply getitem_time_inv in Hinv as (ny & ty & s & k & Hs & Hne & Hk).
  assert (0 < ty) as Hty by (apply norm_index_lt in Hk; lia).
  exists ny, ty, s. split; [exact Hs|]. split; [exact Hne|]. split; [exact Hty|].
  intros -> i Hi. unfold label.
  rewrite (getitem_time_column _ ny ty 0 0 _ Hs (norm_index_nat ty 0 Hty) Hfirst).
  rewrite list_lookup_fmap, lookup_seq_lt by exact Hi. reflexivity.
Qed.


(** C2. A complete run computes exactly three ROC curves and three areas, in
    this order: the curve and the area for the network's predictions on the
    validation set, then the curves for the PIM2 and the PRISM3 columns of the
    CSV file, each against the file's mortality column, then their two areas.
    Each area is computed from the false and true positive rates of its own
    curve, so three pairs of a curve and an area result. *)
Theorem three_roc_auc_pairs L w w' :
  notebook L w = (inr tt, w') ->
  exists v evs,
    complete L w v /\
    trace w' = trace w ++ evs /\
    List.filter metric_call evs =
      [ ok (RocCurve (label v) (prediction v));
        ok (Auc (fpr (v_rnn_roc v)) (tpr (v_rnn_roc v)));
        ok (RocCurve (series (v_mortrep v)) (nd_neg (series (v_pim2 v))));
        ok (RocCurve (series (v_mortrep v)) (nd_neg (series (v_prism3 v))));
        ok (Auc (fpr (v_pim2_roc v)) (tpr (v_pim2_roc v)));
        ok (Auc (fpr (v_prism3_roc v)) (tpr (v_prism3_roc v))) ] /\
    Keras.predict (trained (v_features v) (v_trained v)) (v_X_valid v)
      = Some (v_preds v) /\
    getitem (v_preds v) [full; Int (-1); full] = inr (v_last v) /\
    files w !! "/dli/task/csv/pim2prism3.csv"%string = Some (CsvFile (v_index v)) /\
    df_columns (v_index v) !! "mortalityResponse"%string = Some (v_mortrep v) /\
    df_columns (v_index v) !! "PIM2"%string = Some (v_pim2 v) /\
    df_columns (v_index v) !! "PRISM3"%string = Some (v_prism3 v) /\
    lib_roc_curve L (label v) (prediction v) = inr (v_rnn_roc v) /\
    lib_auc L (fpr (v_rnn_roc v)) (tpr (v_rnn_roc v)) = inr (v_rnn_auc v) /\
    lib_roc_curve L (series (v_mortrep v)) (nd_neg (series (v_pim2 v)))
      = inr (v_pim2_roc v) /\
    lib_auc L (fpr (v_pim2_roc v)) (tpr (v_pim2_roc v)) = inr (v_pim2_auc v) /\
    lib_roc_curve L (series (v_mortrep v)) (nd_neg (series (v_prism3 v)))
      = inr (v_prism3_roc v) /\
    lib_auc L (fpr (v_prism3_roc v)) (tpr (v_prism3_roc v)) = inr (v_prism3_auc v).
Proof.
  intros (v & Hv & Ht & _)%complete_run. exists v. eexists.
  split; [exact Hv|]. split; [exact Ht|]. split; [reflexivity|].
  unfold complete in Hv. open_hyps. split_and!; assumption.
Qed.

Lemma three_roc_auc_pairs_witness :
  exists w' v evs,
    notebook Demo.lib Demo.start = (inr tt, w') /\
    trace w' = trace Demo.start ++ evs /\
    List.filter metric_call evs =
      [ ok (RocCurve (label v) (prediction v));
        ok (Auc (fpr (v_rnn_roc v)) (tpr (v_rnn_roc v)));
        ok (RocCurve (series (v_mortrep v)) (nd_neg (series (v_pim2 v))));
        ok (RocCurve (series (v_mortrep v)) (nd_neg (series (v_prism3 v))));
        ok (Auc (fpr (v_pim2_roc v)) (tpr (v_pim2_roc v)));
        ok (Auc (fpr (v_prism3_roc v)) (tpr (v_prism3_roc v))) ].
Proof.
  destruct demo_runs as (v0 & _ & Hrun & _).
  destruct (three_roc_auc_pairs Demo.lib Demo.start _ Hrun)
    as (v & evs & _ & Ht & Hf & _).
  exists (final Demo.lib Demo.start v0), v, evs.
  split; [exact Hrun|]. split; [exact Ht | exact Hf].
Defined.


(** C8. No run recovers from an exception.  From any world the calls of a run
    all return, up to the first call that raises; that call is the last one
    made and its exception is the result of the run.  In particular a missing
    [X_train_prepared.npy] ends the run at the first call with
    FileNotFoundError, and a missing CSV file makes [read_csv] raise
    FileNotFoundError, so that no run completes without it. *)
Theorem exceptions_propagate L w :
  (exists evs,
     trace (snd (notebook L w)) = trace w ++ evs /\
     match fst (notebook L w) with
     | inr _ => Forall succeeded evs
     | inl e => exists pre c,
         evs = pre ++ [Event c (Some e)] /\ Forall succeeded pre
     end)
  /\ (files w !! "X_train_prepared.npy"%string = None ->
      notebook L w =
        (inl (FileNotFoundError "X_train_prepared.npy"),
         log (NpLoad "X_train_prepared.npy")
           (Some (FileNotFoundError "X_train_prepared.npy")) w))
  /\ (files w !! "/dli/task/csv/pim2prism3.csv"%string = None ->
      cell_baselines L w =
        (inl (FileNotFoundError "/dli/task/csv/pim2prism3.csv"),
         log (ReadCsv "/dli/task/csv/pim2prism3.csv")
           (Some (FileNotFoundError "/dli/task/csv/pim2prism3.csv")) w)
      /\ forall w', notebook L w <> (inr tt, w')).
Proof.
  split; [|split].
  - destruct (notebook_scripted L w) as (evs & Ht & H). exists evs.
    split; [exact Ht|]. destruct (fst (notebook L w)).
    + destruct H as (pre & c & ? & ? & _). eauto.
    + by destruct H.
  - intros Hmissing. unfold notebook. apply bind_inl.
    unfold cell_load, np_load. rewrite bind_do_call, Hmissing. reflexivity.
  - intros Hmissing. split.
    + unfold cell_baselines, read_csv.
      change (os_path_join "/dli/task/csv" "pim2prism3.csv") with csv_path.
      rewrite bind_do_call. unfold csv_path. rewrite Hmissing. reflexivity.
    + intros w' (v & Hv & _)%notebook_complete. unfold complete in Hv. open_hyps.
      unfold csv_path in *. congruence.
Qed.

Lemma exceptions_propagate_witness :
  notebook Demo.lib (fresh ∅ []) =
    (inl (FileNotFoundError "X_train_prepared.npy"),
     log (NpLoad "X_train_prepared.npy")
       (Some (FileNotFoundError "X_train_prepared.npy")) (fresh ∅ []))
  /\ cell_baselines Demo.lib (fresh ∅ []) =
       (inl (FileNotFoundError "/dli/task/csv/pim2prism3.csv"),
        log (ReadCsv "/dli/task/csv/pim2prism3.csv")
          (Some (FileNotFoundError "/dli/task/csv/pim2prism3.csv")) (fresh ∅ [])).
Proof.
  pose proof (exceptions_propagate Demo.lib (fresh ∅ [])) as (_ & H1 & H2).
  split.
  - apply H1. reflexivity.
  - apply H2. reflexivity.
Defined.

(** C9. In a complete run the ROC curve of the network is computed from
    [y_valid[:, 0, :]] and [preds[:, -1, :]], both squeezed: the score of
    encounter [i] is the prediction at the last timestep of that encounter,
    and, [y_valid] having a last axis of width one, its label is the value at
    the first timestep.  Both slices need a time axis that is not empty: on an
    empty one the index raises IndexError, so a run that completes has a
    positive number of timesteps in [y_valid] and in [preds]. *)
Theorem first_label_last_prediction L w :
  (forall a n f j,
     nd_shape a = [n; 0; f] -> getitem a [full; Int j; full] = inl IndexError)
  /\ forall w', notebook L w = (inr tt, w') ->
       exists v evs n t ny ty s,
         complete L w v /\
         trace w' = trace w ++ evs /\
         In (ok (RocCurve (label v) (prediction v))) evs /\
         getitem (v_y_valid v) [full; Int 0; full] = inr (v_first v) /\
         label v = squeeze (v_first v) /\
         getitem (v_preds v) [full; Int (-1); full] = inr (v_last v) /\
         prediction v = squeeze (v_last v) /\
         nd_shape (v_preds v) = [n; t; 1] /\ 0 < t /\
         nd_shape (v_y_valid v) = ny :: ty :: s /\ s <> [] /\ 0 < ty /\
         (forall i, i < n ->
            nd_data (prediction v) !! i
            = Some (get3 t 1 (nd_data (v_preds v)) i (t - 1) 0)) /\
         (s = [1] -> forall i, i < ny ->
            nd_data (label v) !! i
            = Some (get3 ty 1 (nd_data (v_y_valid v)) i 0 0)).
Proof.
  split; [intros a n f j Hs; by apply (getitem_time_empty a n f j)|].
  intros w' (v & Hv & Ht & _)%complete_run.
  destruct (prediction_last L w v Hv) as (n & t & Hshape & Hpos & Hpred).
  destruct (label_first L w v Hv) as (ny & ty & s & Hys & Hne & Hty & Hlab).
  exists v. eexists. exists n, t, ny, ty, s.
  split; [exact Hv|]. split; [exact Ht|]. split; [in_events|].
  unfold complete in Hv. open_hyps.
  split_and!; try assumption; reflexivity.
Qed.

Lemma first_label_last_prediction_witness :
  exists w' v evs n t,
    notebook Demo.lib Demo.start = (inr tt, w') /\
    trace w' = trace Demo.start ++ evs /\
    In (ok (RocCurve (label v) (prediction v))) evs /\
    nd_shape (v_preds v) = [n; t; 1] /\ 0 < t /\
    (forall i, i < n ->
       nd_data (prediction v) !! i
       = Some (get3 t 1 (nd_data (v_preds v)) i (t - 1) 0)).
Proof.
  destruct demo_runs as (v0 & _ & Hrun & _).
  destruct (proj2 (first_label_last_prediction Demo.lib Demo.start) _ Hrun)
    as (v & evs & n & t & ny & ty & s & _ & Ht & Hin & _ & _ & _ & _
        & Hshape & Hpos & _ & _ & _ & Hpred & _).
  exists (final Demo.lib Demo.start v0), v, evs, n, t.
  split; [exact Hrun|]. split; [exact Ht|]. split; [exact Hin|].
  split; [exact Hshape|]. split; [exact Hpos | exact Hpred].
Defined.




(** ** Further properties of the notebook *)

(** X1. The notebook has no control flow that depends on its data: from any
    world, the kinds of the calls a run makes are a prefix of one fixed
    sequence of 52 calls, and a run that completes makes all of them, each
    returning. *)
Theorem run_order L w :
  length script = 52 /\
  exists evs,
    trace (snd (notebook L w)) = trace w ++ evs /\
    kinds evs `prefix_of` script /\
    forall w', notebook L w = (inr tt, w') ->
      kinds evs = script /\ Forall succeeded evs.
Proof.
  split; [reflexivity|].
  destruct (notebook_scripted L w) as (evs & Ht & H). exists evs.
  split; [exact Ht|]. split.
  - destruct (fst (notebook L w)).
    + by destruct H as (? & ? & _ & _ & ?).
    + destruct H as [-> _]. done.
  - intros w' Hrun. rewrite Hrun in H. exact H.
Qed.

Lemma run_order_witness :
  exists w' evs,
    notebook Demo.lib Demo.start = (inr tt, w') /\
    trace w' = trace Demo.start ++ evs /\
    kinds evs = script.
Proof.
  destruct demo_runs as (v & _ & Hrun & _).
  destruct (run_order Demo.lib Demo.start) as (_ & evs & Ht & _ & Hall).
  exists (final Demo.lib Demo.start v), evs.
  split; [exact Hrun|]. rewrite Hrun in Ht. split; [exact Ht|].
  exact (proj1 (Hall _ Hrun)).
Defined.

(** X2. The notebook runs to completion whenever the four arrays are on disk
    and well formed, [X_train] has a last axis, [X_valid] is a non-empty batch
    of sequences of at least one timestep and of [X_train]'s feature width,
    [y_valid] has three axes and at least one timestep, the CSV file holds the
    three columns, and the calls of [fit], [roc_curve] and [auc] that this
    run makes return.  Such a run leaves the files as they were and adds two
    figures. *)
Theorem notebook_completes L w X_train y_train X_valid y_valid
    features n t ny ty fy history ws index mortrep pim2 prism3
    rnn_roc pim2_roc prism3_roc rnn_auc pim2_auc prism3_auc :
  loaded w "X_train_prepared.npy" X_train ->
  loaded w "y_train_prepared.npy" y_train ->
  loaded w "X_valid_prepared.npy" X_valid ->
  loaded w "y_valid_prepared.npy" y_valid ->
  shape_at X_train (-1) = inr features ->
  nd_shape X_valid = [n; t; features] -> 0 < n -> 0 < t ->
  nd_shape y_valid = [ny; ty; fy] -> 0 < ty ->
  lib_fit L
    (Keras.Model_ (network features)
       (Some (Keras.RMSprop 0.005, "binary_crossentropy"%string))
       (lib_initializer L (network features)))
    X_train y_train 128 5 = inr (history, ws) ->
  (forall first last,
     getitem y_valid [full; Int 0; full] = inr first ->
     getitem (predicted ws n t features (nd_data X_valid)) [full; Int (-1); full]
       = inr last ->
     lib_roc_curve L (squeeze first) (squeeze last) = inr rnn_roc) ->
  lib_auc L (fpr rnn_roc) (tpr rnn_roc) = inr rnn_auc ->
  files w !! "/dli/task/csv/pim2prism3.csv"%string = Some (CsvFile index) ->
  df_columns index !! "mortalityResponse"%string = Some mortrep ->
  df_columns index !! "PIM2"%string = Some pim2 ->
  df_columns index !! "PRISM3"%string = Some prism3 ->
  lib_roc_curve L (series mortrep) (nd_neg (series pim2)) = inr pim2_roc ->
  lib_roc_curve L (series mortrep) (nd_neg (series prism3)) = inr prism3_roc ->
  lib_auc L (fpr pim2_roc) (tpr pim2_roc) = inr pim2_auc ->
  lib_auc L (fpr prism3_roc) (tpr prism3_roc) = inr prism3_auc ->
  exists w',
    notebook L w = (inr tt, w') /\
    files w' = files w /\
    length (figures w') = length (figures w) + 2.
Proof.
  intros. destruct (notebook_runs L w X_train y_train X_valid y_valid features
                      n t ny ty fy history ws index mortrep pim2 prism3
                      rnn_roc pim2_roc prism3_roc rnn_auc pim2_auc prism3_auc)
    as (v & _ & Hrun & _); try assumption.
  exists (final L w v). split; [exact Hrun|].
  unfold final. cbn [files figures]. split; [reflexivity|].
  rewrite length_app. reflexivity.
Qed.

Lemma notebook_completes_witness :
  exists w',
    notebook Demo.lib Demo.start = (inr tt, w') /\
    files w' = files Demo.start /\
    length (figures w') = length (figures Demo.start) + 2.
Proof.
  apply (notebook_completes Demo.lib Demo.start Demo.X_train Demo.y_train
           Demo.X_valid Demo.y_valid 1 2 3 2 3 1 [] Demo.weights Demo.scores
           (map Int64 [1; 0]%Z) (map real [-1; -3]%R) (map Int64 [5; 2]%Z)
           (Roc [real 0; real 1] [real 0; real 1] [real 1; real 0])
           (Roc [real 0; real 1] [real 0; real 1] [real 1; real 0])
           (Roc [real 0; real 1] [real 0; real 1] [real 1; real 0])
           (Real (1 / 2)) (Real (1 / 2)) (Real (1 / 2)));
    demo_world.
Defined.

(** X3. A run completes only if: the four arrays are on disk and well formed;
    [X_train] has a last axis; [X_valid] has at least one encounter, at least
    one timestep and [X_train]'s feature width on its third axis, and has
    three axes, or four with a last axis of length one; [y_valid] has at
    least three axes and at least one timestep; and the CSV file is there
    with its three columns. *)
Theorem completion_requires L w w' :
  notebook L w = (inr tt, w') ->
  exists X_train y_train X_valid y_valid features n t ny ty s index,
    loaded w "X_train_prepared.npy" X_train /\
    loaded w "y_train_prepared.npy" y_train /\
    loaded w "X_valid_prepared.npy" X_valid /\
    loaded w "y_valid_prepared.npy" y_valid /\
    shape_at X_train (-1) = inr features /\
    (nd_shape X_valid = [n; t; features]
     \/ nd_shape X_valid = [n; t; features; 1]) /\
    0 < n /\ 0 < t /\
    nd_shape y_valid = ny :: ty :: s /\ s <> [] /\ 0 < ty /\
    files w !! "/dli/task/csv/pim2prism3.csv"%string = Some (CsvFile index) /\
    is_Some (df_columns index !! "mortalityResponse"%string) /\
    is_Some (df_columns index !! "PIM2"%string) /\
    is_Some (df_columns index !! "PRISM3"%string).
Proof.
  intros (v & Hv & _)%notebook_complete.
  destruct (valid_input_shape L w v Hv) as (n & t & Hshape & Hs).
  destruct (label_first L w v Hv) as (ny & ty & s & Hys & Hne & Hty & _).
  unfold complete in Hv. open_hyps.
  match goal with
  | H : Keras.predict _ _ = Some _ |- _ =>
      apply predict_batch in H as (n' & t' & _ & Hshape' & Hn & Ht)
  end.
  rewrite Hshape in Hshape'. injection Hshape' as <- <-.
  exists (v_X_train v), (v_y_train v), (v_X_valid v), (v_y_valid v), (v_features v),
    n, t, ny, ty, s, (v_index v).
  split_and!; try assumption; eauto.
Qed.

Lemma completion_requires_witness :
  exists w' n t,
    notebook Demo.lib Demo.start = (inr tt, w') /\
    nd_shape Demo.X_valid = [n; t; 1] /\ 0 < n /\ 0 < t.
Proof.
  destruct demo_runs as (v0 & _ & Hrun & _).
  destruct (completion_requires Demo.lib Demo.start _ Hrun)
    as (Xt & yt & Xv & yv & F & n & t & ny & ty & s & index
        & _ & _ & [HXv _] & _ & _ & Hs & Hn & Ht & _).
  exists (final Demo.lib Demo.start v0), n, t.
  split; [exact Hrun|].
  assert (Xv = Demo.X_valid) as -> by (injection HXv as <-; reflexivity).
  destruct Hs as [Hs|Hs]; [|discriminate Hs].
  injection Hs as <- <- _. split; [reflexivity|]. split; lia.
Defined.

(** X4. The history that [fit] returns is never used: whatever is put in its
    place, the run has the same result and ends in the same world, with the
    same calls logged and the same figures. *)
Theorem history_unused (g : list float -> list float) L w :
  notebook (with_history g L) w = notebook L w.
Proof.
  unfold notebook, mbind, M_bind.
  destruct (cell_load w) as [[e|[[[X_train y_train] X_valid] y_valid]] w1];
    [reflexivity|].
  change (cell_construct (with_history g L) X_train w1)
    with (cell_construct L X_train w1).
  destruct (cell_construct L X_train w1) as [[e|model] w2]; [reflexivity|].
  unfold cell_train, fit. rewrite !run_keras_call.
  cbn [lib_fit lib_seeds with_history].
  destruct (lib_fit L model X_train y_train 128 5) as [e|[history ws]];
    reflexivity.
Qed.

Lemma getitem_time_few_axes a j :
  length (nd_shape a) < 3 -> getitem a [full; Int j; full] = inl IndexError.
Proof.
  unfold getitem, full. destruct (nd_shape a) as [|n [|t [|f s]]]; cbn [select length].
  - reflexivity.
  - reflexivity.
  - intros _. destruct (norm_index t j); reflexivity.
  - lia.
Qed.

(** X5. The first of the four array files that is missing ends the run: the
    files before it are loaded, the load of the missing one raises
    FileNotFoundError with its name, and nothing else happens: no model is
    built and no figure is made. *)
Theorem first_missing_file L w before file after :
  before ++ file :: after =
    [ "X_train_prepared.npy"; "y_train_prepared.npy";
      "X_valid_prepared.npy"; "y_valid_prepared.npy" ]%string ->
  Forall (fun f => exists a, loaded w f a) before ->
  files w !! file = None ->
  fst (notebook L w) = inl (FileNotFoundError file) /\
  trace (snd (notebook L w)) =
    trace w ++ map (fun f => ok (NpLoad f)) before
            ++ [Event (NpLoad file) (Some (FileNotFoundError file))] /\
  figures (snd (notebook L w)) = figures w.
Proof.
  intros Hsplit Hbefore Hmissing.
  assert (exists w1, cell_load w = (inl (FileNotFoundError file), w1) /\
            trace w1 = trace w ++ map (fun f => ok (NpLoad f)) before
                       ++ [Event (NpLoad file) (Some (FileNotFoundError file))] /\
            figures w1 = figures w) as (w1 & Hload & Ht & Hf).
  { unfold cell_load, np_load, loaded in *.
    destruct before as [|f1 [|f2 [|f3 [|f4 before]]]];
      cbn [app] in Hsplit; simplify_eq;
      repeat match goal with
             | H : Forall _ (_ :: _) |- _ =>
                 apply Forall_cons in H as [(? & ? & ?) H]
             end.
    all: try (exfalso;
              match goal with
              | H : ?l ++ _ :: _ = [] |- _ => destruct l; discriminate H
              end).
    all: eexists; split;
      [ repeat (rewrite bind_do_call; cbn [files log];
                match goal with
                | H : files ?w0 !! ?p = _ |- context [files ?w0 !! ?p] => rewrite H
                end;
                try match goal with
                    | H : nd_wf ?a = true |- context [nd_wf ?a] => rewrite H
                    end);
        reflexivity
      | cbn [trace figures log map app]; rewrite <- ?app_assoc; split; reflexivity ]. }
  unfold notebook. rewrite (bind_inl _ _ _ _ _ Hload). cbn [fst snd]. done.
Qed.

Lemma first_missing_file_witness :
  fst (notebook Demo.lib
         (fresh (<["X_train_prepared.npy"%string := NpyFile Demo.X_train]> ∅) []))
  = inl (FileNotFoundError "y_train_prepared.npy").
Proof.
  apply (first_missing_file Demo.lib _ ["X_train_prepared.npy"%string]
           "y_train_prepared.npy"
           ["X_valid_prepared.npy"; "y_valid_prepared.npy"]%string).
  - reflexivity.
  - constructor; [|constructor]. exists Demo.X_train. split; reflexivity.
  - reflexivity.
Defined.

(** X6. A CSV file that lacks a column makes the baseline cell raise KeyError
    with the name of the first column it misses, in the order the cell asks
    for them.  Without [mortalityResponse] or [PIM2] no ROC curve is computed;
    without [PRISM3] the PIM2 curve has been computed but no area has. *)
Theorem missing_column L w index :
  files w !! "/dli/task/csv/pim2prism3.csv"%string = Some (CsvFile index) ->
  (df_columns index !! "mortalityResponse"%string = None ->
   fst (cell_baselines L w) = inl (KeyError "mortalityResponse") /\
   trace (snd (cell_baselines L w)) =
     trace w ++ [ ok (ReadCsv "/dli/task/csv/pim2prism3.csv");
                  Event (FrameGetItem "mortalityResponse")
                    (Some (KeyError "mortalityResponse")) ])
  /\ (forall mortrep,
        df_columns index !! "mortalityResponse"%string = Some mortrep ->
        df_columns index !! "PIM2"%string = None ->
        fst (cell_baselines L w) = inl (KeyError "PIM2") /\
        trace (snd (cell_baselines L w)) =
          trace w ++ [ ok (ReadCsv "/dli/task/csv/pim2prism3.csv");
                       ok (FrameGetItem "mortalityResponse");
                       Event (FrameGetItem "PIM2") (Some (KeyError "PIM2")) ])
  /\ (forall mortrep pim2 pim2_roc,
        df_columns index !! "mortalityResponse"%string = Some mortrep ->
        df_columns index !! "PIM2"%string = Some pim2 ->
        lib_roc_curve L (series mortrep) (nd_neg (series pim2)) = inr pim2_roc ->
        df_columns index !! "PRISM3"%string = None ->
        fst (cell_baselines L w) = inl (KeyError "PRISM3") /\
        trace (snd (cell_baselines L w)) =
          trace w ++ [ ok (ReadCsv "/dli/task/csv/pim2prism3.csv");
                       ok (FrameGetItem "mortalityResponse");
                       ok (FrameGetItem "PIM2");
                       ok (RocCurve (series mortrep) (nd_neg (series pim2)));
                       Event (FrameGetItem "PRISM3") (Some (KeyError "PRISM3")) ]).
Proof.
  intros Hcsv. unfold cell_baselines, read_csv, column, roc_curve.
  change (os_path_join "/dli/task/csv" "pim2prism3.csv")
    with "/dli/task/csv/pim2prism3.csv"%string.
  rewrite bind_do_call. cbn [files log]. rewrite Hcsv.
  split; [|split].
  - intros H1. rewrite bind_pure_call, H1. cbn [fst snd trace log].
    rewrite <- ?app_assoc. done.
  - intros mortrep H1 H2. rewrite bind_pure_call, H1, bind_pure_call, H2.
    cbn [fst snd trace log]. rewrite <- ?app_assoc. done.
  - intros mortrep pim2 pim2_roc H1 H2 H3 H4.
    rewrite bind_pure_call, H1, bind_pure_call, H2, bind_pure_call, H3,
      bind_pure_call, H4.
    cbn [fst snd trace log]. rewrite <- ?app_assoc. done.
Qed.

Lemma missing_column_witness :
  fst (cell_baselines Demo.lib
         (fresh (<["/dli/task/csv/pim2prism3.csv"%string :=
                     CsvFile (DataFrame ∅)]> ∅) []))
    = inl (KeyError "mortalityResponse")
  /\ fst (cell_baselines Demo.lib
            (fresh (<["/dli/task/csv/pim2prism3.csv"%string :=
                        CsvFile (DataFrame
                          (<["mortalityResponse"%string := [Int64 1]]> ∅))]> ∅) []))
       = inl (KeyError "PIM2")
  /\ fst (cell_baselines Demo.lib
            (fresh (<["/dli/task/csv/pim2prism3.csv"%string :=
                        CsvFile (DataFrame
                          (<["mortalityResponse"%string := [Int64 1]]>
                           (<["PIM2"%string := [Int64 2]]> ∅)))]> ∅) []))
       = inl (KeyError "PRISM3").
Proof.
  split; [|split].
  - apply (missing_column Demo.lib _ (DataFrame ∅)); reflexivity.
  - match goal with |- fst (cell_baselines _ ?w0) = _ =>
      pose proof (missing_column Demo.lib w0
                    (DataFrame (<["mortalityResponse"%string := [Int64 1]]> ∅)) eq_refl)
        as (_ & H & _)
    end.
    apply (H [Int64 1]); reflexivity.
  - match goal with |- fst (cell_baselines _ ?w0) = _ =>
      pose proof (missing_column Demo.lib w0
                    (DataFrame (<["mortalityResponse"%string := [Int64 1]]>
                                (<["PIM2"%string := [Int64 2]]> ∅))) eq_refl)
        as (_ & _ & H)
    end.
    apply (H [Int64 1] [Int64 2]
             (Roc [real 0; real 1] [real 0; real 1] [real 1; real 0]));
      reflexivity.
Defined.

(** X7. On an array without encounters the visualisation cell stops at
    [random.randint(0, -1)], which raises ValueError for its empty range: no
    figure is made and no random number is used. *)
Theorem visualize_empty X_valid preds w s :
  nd_shape X_valid = 0 :: s ->
  fst (cell_visualize X_valid preds w)
    = inl (ValueError "empty range for randrange()") /\
  trace (snd (cell_visualize X_valid preds w)) =
    trace w ++ [ ok (ShapeAt X_valid 0);
                 Event (RandomRandint 0 (-1))
                   (Some (ValueError "empty range for randrange()")) ] /\
  figures (snd (cell_visualize X_valid preds w)) = figures w /\
  entropy (snd (cell_visualize X_valid preds w)) = entropy w.
Proof.
  intros Hs. unfold cell_visualize, shape, randint.
  rewrite bind_pure_call, (shape_at_first _ _ _ Hs), bind_do_call.
  change (Z.of_nat 0 - 1 <? 0)%Z with true. change (Z.of_nat 0 - 1)%Z with (-1)%Z.
  cbn [fst snd trace figures entropy log]. rewrite <- ?app_assoc. done.
Qed.

Lemma visualize_empty_witness :
  fst (cell_visualize (NdArray [0; 3; 1] []) (NdArray [0; 3; 1] []) (fresh ∅ [7]))
    = inl (ValueError "empty range for randrange()").
Proof.
  apply (visualize_empty (NdArray [0; 3; 1] []) (NdArray [0; 3; 1] [])
           (fresh ∅ [7]) [3; 1]).
  reflexivity.
Defined.

(** X8. The ROC cell indexes before it computes: a [y_valid] with fewer than
    three axes raises IndexError at [y_valid[:, 0, :]], and predictions with
    an empty time axis raise IndexError at [preds[:, -1, :]]; in both cases
    [roc_curve] and [auc] are never called. *)
Theorem roc_needs_indexable L y_valid preds w :
  (length (nd_shape y_valid) < 3 ->
   fst (cell_rnn_roc L y_valid preds w) = inl IndexError /\
   trace (snd (cell_rnn_roc L y_valid preds w)) =
     trace w ++ [ Event (GetItem y_valid [full; Int 0; full]) (Some IndexError) ])
  /\ (forall ny ty fy n f,
        nd_shape y_valid = [ny; ty; fy] -> 0 < ty ->
        nd_shape preds = [n; 0; f] ->
        fst (cell_rnn_roc L y_valid preds w) = inl IndexError /\
        trace (snd (cell_rnn_roc L y_valid preds w)) =
          trace w ++ [ ok (GetItem y_valid [full; Int 0; full]);
                       Event (GetItem preds [full; Int (-1); full])
                         (Some IndexError) ]).
Proof.
  unfold cell_rnn_roc, item. split.
  - intros Hfew. rewrite bind_pure_call, (getitem_time_few_axes _ _ Hfew).
    cbn [fst snd trace log]. done.
  - intros ny ty fy n f Hy Hty Hp.
    rewrite bind_pure_call,
      (getitem_time y_valid ny ty fy 0 0 Hy (norm_index_nat ty 0 Hty)).
    rewrite bind_pure_call, (getitem_time_empty preds n f (-1) Hp).
    cbn [fst snd trace log]. rewrite <- ?app_assoc. done.
Qed.

Lemma roc_needs_indexable_witness :
  fst (cell_rnn_roc Demo.lib (NdArray [2; 3] (map Int64 [1; 1; 1; 0; 0; 0]%Z))
         (NdArray [2; 3; 1] (map real [1; 1; 1; 0; 0; 0]%R)) (fresh ∅ []))
    = inl IndexError
  /\ fst (cell_rnn_roc Demo.lib Demo.y_valid (NdArray [2; 0; 1] []) (fresh ∅ []))
       = inl IndexError.
Proof.
  split.
  - apply (proj1 (roc_needs_indexable Demo.lib (NdArray [2; 3] (map Int64 [1; 1; 1; 0; 0; 0]%Z))
                    (NdArray [2; 3; 1] (map real [1; 1; 1; 0; 0; 0]%R)) (fresh ∅ []))).
    cbn. lia.
  - apply (proj2 (roc_needs_indexable Demo.lib Demo.y_valid (NdArray [2; 0; 1] [])
                    (fresh ∅ [])) 2 3 1 2 1); [reflexivity | lia | reflexivity].
Defined.
(** ** The footprint of a run *)

Lemma footprint_ret {A} (a : A) : footprint 0 (mret a : M A).
Proof.
  intros w. cbn. split; [done|]. exists []. split; [by rewrite app_nil_r | done].
Qed.

Lemma footprint_quiet {A} c (sem : world -> (exn + A) * world) :
  (forall w, files (snd (sem w)) = files w /\ figures (snd (sem w)) = figures w) ->
  footprint 0 (do_call c sem).
Proof.
  intros Hsem w. destruct (Hsem w) as (Hf & Hg). unfold do_call.
  destruct (sem w) as [[e|a] w1]; cbn [fst snd files figures log] in *;
    (split; [done|]; exists []; split; [by rewrite Hg, app_nil_r | done]).
Qed.

Lemma footprint_bind {A B} f1 f2 (m : M A) (k : A -> M B) :
  footprint f1 m -> (forall a, footprint f2 (k a)) ->
  footprint (f1 + f2) (m ≫= k).
Proof.
  intros Hm Hk w. destruct (Hm w) as (Hf & (n1 & Hn1 & Hg1)).
  unfold mbind, M_bind. destruct (m w) as [[e|a] w1]; cbn [fst snd] in *.
  - split; [done|]. exists n1. split; [done | lia].
  - destruct (Hk a w1) as (Hf2 & (n2 & Hn2 & Hg2)).
    split; [congruence|].
    exists (n1 ++ n2). split; [by rewrite Hn2, Hn1, app_assoc|].
    rewrite length_app. lia.
Qed.

Lemma footprint_quiet_bind {A B} c (sem : world -> (exn + A) * world)
    (k : A -> M B) f :
  (forall w, files (snd (sem w)) = files w /\ figures (snd (sem w)) = figures w) ->
  (forall a, footprint f (k a)) ->
  footprint f (do_call c sem ≫= k).
Proof.
  intros Hsem Hk. apply (footprint_bind 0 f); [by apply footprint_quiet | done].
Qed.

Ltac keeps_world :=
  intros ?; cbn [fst snd files figures set_entropy];
  repeat case_match; repeat split; reflexivity.

Ltac quiet :=
  repeat lazymatch goal with
         | |- footprint _ (mret _) => apply footprint_ret
         | |- footprint _ (_ ≫= _) =>
             apply footprint_quiet_bind; [keeps_world | intros ?]
         | |- footprint _ (do_call _ _) =>
             apply footprint_quiet; keeps_world
         end.

Lemma cell_load_footprint : footprint 0 cell_load.
Proof. unfold cell_load, np_load. quiet. Qed.

Lemma cell_construct_footprint L X : footprint 0 (cell_construct L X).
Proof.
  unfold cell_construct, shape, Input, apply, Model, compile, summary, pure_call,
    keras_call.
  quiet.
Qed.

Lemma cell_train_footprint L m X y : footprint 0 (cell_train L m X y).
Proof. unfold cell_train, fit, keras_call. quiet. Qed.

Lemma cell_evaluate_footprint L m X : footprint 0 (cell_evaluate L m X).
Proof. unfold cell_evaluate, predict, keras_call. quiet. Qed.

Lemma cell_shape_footprint p : footprint 0 (cell_shape p).
Proof. unfold cell_shape, display, pure_call. quiet. Qed.

Lemma cell_rnn_roc_footprint L y p : footprint 0 (cell_rnn_roc L y p).
Proof. unfold cell_rnn_roc, item, roc_curve, auc, pure_call. quiet. Qed.

Lemma cell_baselines_footprint L : footprint 0 (cell_baselines L).
Proof. unfold cell_baselines, read_csv, column, roc_curve, auc, pure_call. quiet. Qed.

Lemma cell_visualize_footprint X p : footprint 1 (cell_visualize X p).
Proof.
  intros w. destruct (cell_visualize X p w) as [r w'] eqn:Hrun. cbn [snd].
  revert Hrun.
  unfold cell_visualize, shape, randint, plt_subplots, unpack2, item, ax_call,
    plt_call, draw_call.
  exec.
  all: intros [_ <-]%pair_equal_spec;
    cbn [files entropy figures trace log set_figures set_entropy];
    (split; [reflexivity|]);
    draw;
    first [ exists []; split; [by rewrite app_nil_r | cbn; lia]
          | eexists; split; [reflexivity | cbn; lia] ].
Qed.

Lemma cell_plot_rocs_footprint r1 r2 r3 a1 a2 a3 :
  footprint 1 (cell_plot_rocs r1 r2 r3 a1 a2 a3).
Proof.
  intros w. destruct (cell_plot_rocs r1 r2 r3 a1 a2 a3 w) as [r w'] eqn:Hrun.
  cbn [snd]. revert Hrun.
  unfold cell_plot_rocs, plt_figure, plt_call, plt_tight_layout, draw_call.
  exec.
  intros [_ <-]%pair_equal_spec.
  cbn [files entropy figures trace log set_figures set_entropy].
  split; [reflexivity|].
  draw. eexists. split; [reflexivity | cbn; lia].
Qed.

(** X9. What any run, complete or not, leaves behind: the files are as they
    were (nothing is saved); at most two figures were added after the
    existing ones, which are left as they were; and the notebook itself drew
    at most one random number, there being at most one call of
    [random.randint] among the calls made. *)
Theorem run_footprint L w :
  files (snd (notebook L w)) = files w /\
  (exists new,
     figures (snd (notebook L w)) = figures w ++ new /\ length new <= 2) /\
  (exists evs,
     trace (snd (notebook L w)) = trace w ++ evs /\
     length (List.filter randint_call evs) <= 1).
Proof.
  assert (footprint 2 (notebook L)) as H.
  { unfold notebook.
    apply (footprint_bind 0 2);
      [apply cell_load_footprint | intros [[[X_train y_train] X_valid] y_valid]].
    apply (footprint_bind 0 2); [apply cell_construct_footprint | intros model].
    apply (footprint_bind 0 2);
      [apply cell_train_footprint | intros [history model']].
    apply (footprint_bind 0 2); [apply cell_evaluate_footprint | intros preds].
    apply (footprint_bind 0 2); [apply cell_shape_footprint | intros _].
    apply (footprint_bind 1 1); [apply cell_visualize_footprint | intros _].
    apply (footprint_bind 0 1);
      [apply cell_rnn_roc_footprint | intros [rnn_roc rnn_auc]].
    apply (footprint_bind 0 1);
      [apply cell_baselines_footprint | intros [[[? ?] ?] ?]].
    apply cell_plot_rocs_footprint. }
  destruct (H w) as [Hfiles Hfigs]. split; [exact Hfiles|]. split; [exact Hfigs|].
  destruct (any_run L w) as (evs & Ht & Hp). exists evs. split; [exact Ht|].
  apply (filter_prefix is_randint) in Hp. apply prefix_length in Hp.
  replace (length (List.filter randint_call evs))
    with (length (List.filter is_randint (kinds evs))); [exact Hp|].
  clear. unfold kinds. induction evs as [|[c r] evs IH]; [reflexivity|].
  cbn [map List.filter]. unfold randint_call at 1. cbn [ev_call].
  destruct c; cbn [kind_of is_randint length]; rewrite ?IH; reflexivity.
Qed.

(** ** What the encounter chart shows *)

Lemma slice_1_50 t :
  slice_indices t (Some 1%Z) (Some 50%Z) = seq 1 (Nat.min t 50 - 1).
Proof.
  unfold slice_indices. cbn [from_option].
  destruct t as [|t]; [reflexivity|].
  assert (clamp (S t) 1 = 1) as -> by (unfold clamp; cbn [Z.ltb Z.compare]; lia).
  assert (clamp (S t) 50 = Nat.min (S t) 50) as ->
    by (unfold clamp; cbn [Z.ltb Z.compare]; lia).
  reflexivity.
Qed.

Lemma nth_rows {A} (g : nat -> nat -> A) (f : nat) (l : list nat) (d : A) j c e :
  j < length l -> c < f ->
  nth (j * f + c) (flat_map (fun x => map (g x) (seq 0 f)) l) d = g (nth j l e) c.
Proof.
  revert j. induction l as [|x l IH]; intros j Hj Hc; [cbn in Hj; lia|].
  cbn [flat_map]. destruct j as [|j].
  - rewrite app_nth1 by (rewrite length_map, length_seq; lia).
    cbn [Nat.mul Nat.add nth].
    rewrite (nth_indep _ d (g x 0)) by (rewrite length_map, length_seq; lia).
    rewrite map_nth, seq_nth by lia. reflexivity.
  - rewrite app_nth2 by (rewrite length_map, length_seq; lia).
    rewrite length_map, length_seq.
    replace (S j * f + c - f) with (j * f + c) by lia.
    cbn [nth]. apply IH; [cbn in Hj; lia | exact Hc].
Qed.

Lemma rows_length {A} (g : nat -> nat -> A) (f : nat) (l : list nat) :
  length (flat_map (fun x => map (g x) (seq 0 f)) l) = length l * f.
Proof.
  induction l as [|x l IH]; [reflexivity|].
  cbn [flat_map]. rewrite length_app, length_map, length_seq, IH. cbn. lia.
Qed.

(** The transpose of a matrix of [k] rows and [f] columns. *)
Lemma transpose_matrix k f d c j :
  c < f -> j < k ->
  nd_shape (transpose (NdArray [k; f] d)) = [f; k] /\
  nd_data (transpose (NdArray [k; f] d)) !! (c * k + j) = Some (nth (j * f + c) d zero).
Proof.
  intros Hc Hj. split; [reflexivity|].
  unfold transpose. cbn [nd_shape nd_data rev app nd_size fold_right].
  rewrite list_lookup_fmap, lookup_seq_lt by nia.
  cbn [fmap option_fmap option_map unravel ravel rev app nd_size fold_right].
  do 2 f_equal.
  assert ((c * k + j) mod k = j) as Hmod
    by (symmetry; apply (Nat.mod_unique _ _ c); lia).
  assert ((c * k + j) / k = c) as Hdiv
    by (symmetry; apply (Nat.div_unique _ _ _ j); lia).
  rewrite Nat.add_0_l, !Nat.mul_1_r, Nat.div_1_r, Nat.add_0_r, Hmod, Hdiv.
  reflexivity.
Qed.

(** X10. The encounter chart shows timesteps 1 up to, at most, 49 of one
    encounter [i] of the validation set; timestep 0 is never shown.  With
    [k = min(t, 50) - 1], the colour mesh is an array of [f] rows and [k]
    columns holding [X_valid[i, 1 + j, c]] at row [c] and column [j], and the
    line has the [k] values [preds[i, 1 + j, 0]]. *)
Theorem plotted_window X_valid preds w w' n t f :
  nd_shape X_valid = [n; t; f] ->
  nd_shape preds = [n; t; 1] ->
  cell_visualize X_valid preds w = (inr tt, w') ->
  exists i mesh ys,
    i < n /\
    figures w' =
      figures w
      ++ [ Figure None
             [ [ Pcolor mesh; SetYlim 0 265 ];
               [ SetYlabel "mortality" None; SetXlabel "time/observation" None;
                 Plot [ys] None None None None ] ]
             false ] /\
    nd_shape mesh = [f; Nat.min t 50 - 1] /\
    (forall c j, c < f -> j < Nat.min t 50 - 1 ->
       nd_data mesh !! (c * (Nat.min t 50 - 1) + j)
       = Some (get3 t f (nd_data X_valid) i (1 + j) c)) /\
    length ys = Nat.min t 50 - 1 /\
    (forall j, j < Nat.min t 50 - 1 ->
       ys !! j = Some (get3 t 1 (nd_data preds) i (1 + j) 0)).
Proof.
  intros HX Hp (n0 & obs & line & Hn0 & Hpos & Hobs & Hline & ->)%cell_visualize_spec.
  rewrite (shape_at_first _ _ _ HX) in Hn0. injection Hn0 as <-.
  pose proof (drawn_index (entropy w) n Hpos) as Hix.
  set (ix := drawn (entropy w) n) in *. set (i := Z.to_nat ix) in *.
  unfold encounter_index in Hobs, Hline. cbn [app] in Hobs.
  rewrite (getitem_encounter X_valid n t f ix i HX Hix) in Hobs.
  rewrite (getitem_encounter_short preds n t 1 ix Hp),
    (getitem_encounter preds n t 1 ix i Hp Hix) in Hline.
  rewrite slice_1_50 in Hobs, Hline. rewrite length_seq in Hobs, Hline.
  set (k := Nat.min t 50 - 1) in *.
  injection Hobs as <-. injection Hline as <-.
  exists i. eexists. eexists.
  split; [by apply (norm_index_lt n ix)|].
  split; [reflexivity|]. cbn [nd_data].
  split; [reflexivity|]. split; [|split].
  - intros c j Hc Hj.
    destruct (transpose_matrix k f
                (flat_map (fun j0 => map (fun c0 => get3 t f (nd_data X_valid) i j0 c0)
                                      (seq 0 f)) (seq 1 k)) c j Hc Hj) as [_ ->].
    f_equal.
    rewrite (nth_rows (fun j0 c0 => get3 t f (nd_data X_valid) i j0 c0) f (seq 1 k)
               zero j c 0) by (rewrite ?length_seq; lia).
    rewrite seq_nth by lia. reflexivity.
  - rewrite flat_map_single, length_map, length_seq. reflexivity.
  - intros j Hj.
    rewrite flat_map_single, list_lookup_fmap, lookup_seq_lt by exact Hj.
    reflexivity.
Qed.

Lemma plotted_window_witness :
  exists w' i mesh ys,
    cell_visualize Demo.X_valid Demo.y_valid Demo.start = (inr tt, w') /\
    i < 2 /\
    nd_shape mesh = [1; 2] /\
    length ys = 2 /\
    (forall j, j < 2 ->
       ys !! j = Some (get3 3 1 (nd_data Demo.y_valid) i (1 + j) 0)).
Proof.
  assert (exists w', cell_visualize Demo.X_valid Demo.y_valid Demo.start
                     = (inr tt, w')) as [w' Hrun].
  { eexists. apply cell_visualize_spec. exists 2. do 2 eexists.
    split; [reflexivity|]. split; [lia|].
    split; [reflexivity|]. split; reflexivity. }
  destruct (plotted_window Demo.X_valid Demo.y_valid Demo.start w' 2 3 1
              eq_refl eq_refl Hrun)
    as (i & mesh & ys & Hi & _ & Hshape & _ & Hlen & Hys).
  exists w', i, mesh, ys.
  split; [exact Hrun|]. split; [exact Hi|]. split; [exact Hshape|].
  split; [exact Hlen | exact Hys].
Defined.
(** X11. What [squeeze] leaves of the arrays the ROC cell passes to
    [roc_curve], whether that call then returns or raises.  From predictions
    of shape [(n, t, 1)] the score holds one value per encounter, but its
    shape is [(n,)] only when [n] is not 1: with a single encounter every
    axis is dropped and the score is a 0-dimensional array.  From a [y_valid] of shape [(ny, ty, fy)] the label keeps the
    last axis unless it has width one. *)
Theorem squeezed_shapes L y_valid preds w ny ty fy n t :
  nd_shape y_valid = [ny; ty; fy] -> 0 < ty ->
  nd_shape preds = [n; t; 1] -> 0 < t ->
  exists label score raised rest,
    trace (snd (cell_rnn_roc L y_valid preds w)) =
      trace w ++ [ ok (GetItem y_valid [full; Int 0; full]);
                   ok (GetItem preds [full; Int (-1); full]);
                   Event (RocCurve label score) raised ] ++ rest /\
    nd_shape score = (if decide (n = 1) then [] else [n]) /\
    length (nd_data score) = n /\
    nd_shape label = filter (fun k => k <> 1) [ny; fy] /\
    length (nd_data label) = ny * fy.
Proof.
  intros Hy Hty Hp Ht. unfold cell_rnn_roc, item, roc_curve, auc.
  rewrite bind_pure_call,
    (getitem_time y_valid ny ty fy 0 0 Hy (norm_index_nat ty 0 Hty)).
  rewrite bind_pure_call,
    (getitem_time preds n t 1 (-1) (t - 1) Hp (norm_index_last t Ht)).
  rewrite bind_pure_call.
  match goal with
  | |- context [lib_roc_curve L ?a ?b] =>
      exists a, b; destruct (lib_roc_curve L a b) as [e|r]
  end.
  - exists (Some e), []. cbn [fst snd trace log squeeze nd_shape nd_data].
    rewrite <- !app_assoc. split; [reflexivity|]. split; [|split; [|split]].
    + destruct (decide (n = 1)) as [->|Hn]; [reflexivity|].
      rewrite filter_cons_True by exact Hn. reflexivity.
    + rewrite rows_length, length_seq. lia.
    + reflexivity.
    + rewrite rows_length, length_seq. reflexivity.
  - rewrite bind_pure_call.
    exists None, [Event (Auc (fpr r) (tpr r))
                    (match lib_auc L (fpr r) (tpr r) with
                     | inl e => Some e
                     | inr _ => None
                     end)].
    split.
    + destruct (lib_auc L (fpr r) (tpr r)) as [e|a]; rewrite ?run_ret;
        cbn [fst snd trace log]; rewrite <- ?app_assoc; reflexivity.
    + cbn [squeeze nd_shape nd_data]. split; [|split; [|split]].
      * destruct (decide (n = 1)) as [->|Hn]; [reflexivity|].
        rewrite filter_cons_True by exact Hn. reflexivity.
      * rewrite rows_length, length_seq. lia.
      * reflexivity.
      * rewrite rows_length, length_seq. reflexivity.
Qed.

Lemma squeezed_shapes_witness :
  exists label score raised rest,
    trace (snd (cell_rnn_roc Demo.lib
                  (NdArray [1; 2; 1] (map Int64 [1; 1]%Z))
                  (NdArray [1; 2; 1] (map real [0; 1]%R)) (fresh ∅ []))) =
      [ ok (GetItem (NdArray [1; 2; 1] (map Int64 [1; 1]%Z)) [full; Int 0; full]);
        ok (GetItem (NdArray [1; 2; 1] (map real [0; 1]%R)) [full; Int (-1); full]);
        Event (RocCurve label score) raised ] ++ rest /\
    nd_shape score = [] /\ length (nd_data score) = 1 /\
    nd_shape label = [].
Proof.
  destruct (squeezed_shapes Demo.lib (NdArray [1; 2; 1] (map Int64 [1; 1]%Z))
              (NdArray [1; 2; 1] (map real [0; 1]%R)) (fresh ∅ []) 1 2 1 1 2
              eq_refl ltac:(lia) eq_refl ltac:(lia))
    as (label & score & raised & rest & Ht & Hs & Hl & Hlab & _).
  exists label, score, raised, rest.
  split; [exact Ht|]. split; [exact Hs|]. split; [exact Hl | exact Hlab].
Defined.

(** ** A late failure *)

Lemma bind_returned {A B} (m : M A) (k : A -> M B) w a w1 :
  m w = (inr a, w1) -> (m ≫= k) w = k a w1.
Proof. intros H. unfold mbind, M_bind. rewrite H. reflexivity. Qed.

(** When the files, the training and the inference are in order, the run
    reaches the ROC cell with the encounter figure drawn. *)
Lemma notebook_reaches_roc L w X_train y_train X_valid y_valid features n t
    history ws :
  loaded w "X_train_prepared.npy" X_train ->
  loaded w "y_train_prepared.npy" y_train ->
  loaded w "X_valid_prepared.npy" X_valid ->
  loaded w "y_valid_prepared.npy" y_valid ->
  shape_at X_train (-1) = inr features ->
  nd_shape X_valid = [n; t; features] -> 0 < n -> 0 < t ->
  lib_fit L (constructed L features) X_train y_train 128 5 = inr (history, ws) ->
  exists preds obs line,
    nd_shape preds = [n; t; 1] /\
    forall e w1,
      cell_rnn_roc L y_valid preds
        (World (files w)
           (tail (seeded L (construct_calls features
                            ++ [ KerasFit X_train y_train 128 5 1;
                                 KerasPredict X_valid ]) (entropy w)))
           (figures w ++ [encounter_figure obs line])
           (trace w
            ++ (load_events ++ construct_events X_train features
                ++ [ ok (KerasFit X_train y_train 128 5 1);
                     ok (KerasPredict X_valid);
                     ok (Display (nd_shape preds)) ]
                ++ visualize_events (length (figures w))
                     (drawn (seeded L (construct_calls features
                                       ++ [ KerasFit X_train y_train 128 5 1;
                                            KerasPredict X_valid ]) (entropy w)) n)
                     X_valid preds n obs line)))
      = (inl e, w1) ->
      notebook L w = (inl e, w1).
Proof.
  intros HXt Hyt HXv Hyv HF HX Hn Ht Hf.
  set (preds := predicted ws n t features (nd_data X_valid)).
  set (en := seeded L (construct_calls features
                       ++ [KerasFit X_train y_train 128 5 1; KerasPredict X_valid])
               (entropy w)).
  set (ix := drawn en n).
  assert (0 <= Z.of_nat n - 1)%Z as Hn' by lia.
  pose proof (drawn_index en n Hn') as Hix. fold ix in Hix.
  pose proof (getitem_encounter X_valid n t features ix _ HX Hix) as Hobs.
  pose proof (getitem_encounter preds n t 1 ix _ eq_refl Hix) as Hline.
  rewrite <- (getitem_encounter_short preds n t 1 ix eq_refl) in Hline.
  match type of Hobs with _ = inr ?x => set (obs := x) in * end.
  match type of Hline with _ = inr ?x => set (line := x) in * end.
  exists preds, obs, line. split; [reflexivity|]. intros e w1 E.
  unfold notebook.
  erewrite bind_returned
    by (apply cell_load_spec; repeat (split; [eassumption|]); reflexivity).
  cbv beta iota.
  erewrite bind_returned
    by (apply cell_construct_spec; eexists;
        repeat (split; [eassumption || reflexivity|]); reflexivity).
  cbn [files entropy figures trace].
  erewrite bind_returned
    by (apply cell_train_spec; eexists;
        repeat (split; [eassumption || reflexivity|]); reflexivity).
  cbv beta iota. cbn [files entropy figures trace].
  erewrite bind_returned
    by (apply cell_evaluate_spec; split; [|reflexivity];
        by apply predict_network_three).
  cbn [files entropy figures trace]. rewrite <- !seeded_two, <- !seeded_app.
  fold en.
  erewrite bind_returned by (apply cell_shape_spec; reflexivity).
  cbn [files entropy figures trace].
  erewrite bind_returned
    by (apply cell_visualize_spec; exists n, obs, line;
        cbn [files entropy figures trace]; fold ix;
        split; [by apply (shape_at_first _ _ _ HX)|];
        split; [exact Hn'|]; split; [exact Hobs|]; split; [exact Hline|];
        reflexivity).
  cbn [files entropy figures trace].
  apply bind_inl. rewrite <- E. f_equal.
  apply world_ext; cbn [files entropy figures trace]; try reflexivity.
  rewrite <- !app_assoc. reflexivity.
Qed.

(** X12. A [y_valid] with fewer than three axes is only noticed at the ROC
    cell: when everything before is in order (the validation input is a
    non-empty batch of non-empty sequences of the feature width of [X_train],
    and the call of [fit] returns), the run trains the network, predicts,
    draws the encounter figure, and then ends with IndexError at
    [y_valid[:, 0, :]], before any ROC curve is computed and before the CSV
    file is read. *)
Theorem late_label_failure L w X_train y_train X_valid y_valid features n t
    history ws :
  loaded w "X_train_prepared.npy" X_train ->
  loaded w "y_train_prepared.npy" y_train ->
  loaded w "X_valid_prepared.npy" X_valid ->
  loaded w "y_valid_prepared.npy" y_valid ->
  shape_at X_train (-1) = inr features ->
  nd_shape X_valid = [n; t; features] -> 0 < n -> 0 < t ->
  lib_fit L
    (Keras.Model_ (network features)
       (Some (Keras.RMSprop 0.005, "binary_crossentropy"%string))
       (lib_initializer L (network features)))
    X_train y_train 128 5 = inr (history, ws) ->
  length (nd_shape y_valid) < 3 ->
  fst (notebook L w) = inl IndexError /\
  (exists evs,
     trace (snd (notebook L w)) =
       trace w ++ evs
       ++ [Event (GetItem y_valid [full; Int 0; full]) (Some IndexError)] /\
     kinds evs =
       load_script ++ construct_script ++ [K_fit 128 5; K_predict; K_display]
       ++ visualize_script /\
     Forall succeeded evs) /\
  length (figures (snd (notebook L w))) = length (figures w) + 1.
Proof.
  intros HXt Hyt HXv Hyv HF HX Hn Ht Hfit Hfew.
  destruct (notebook_reaches_roc L w X_train y_train X_valid y_valid features n t
              history ws)
    as (preds & obs & line & _ & Hreach); try assumption.
  match type of Hreach with
  | forall e w1, cell_rnn_roc _ _ _ ?W0 = _ -> _ => set (W := W0) in *
  end.
  destruct (roc_needs_indexable L y_valid preds W) as [Hroc _].
  destruct (Hroc Hfew) as [Hres Htrace]. clear Hroc.
  destruct (cell_rnn_roc_footprint L y_valid preds W)
    as (_ & (new & Hfigs & Hnew)).
  destruct (cell_rnn_roc L y_valid preds W) as [r w1] eqn:E.
  cbn [fst snd] in Hres, Htrace, Hfigs. subst r.
  rewrite (Hreach _ _ eq_refl). cbn [fst snd].
  split; [reflexivity|]. split.
  - eexists. split; [|split].
    + rewrite Htrace. unfold W. cbn [trace]. rewrite <- app_assoc. reflexivity.
    + reflexivity.
    + unfold load_events, construct_events, visualize_events. cbn [app].
      repeat constructor.
  - rewrite Hfigs. unfold W. cbn [figures]. destruct new; [|cbn in Hnew; lia].
    rewrite app_nil_r, length_app. reflexivity.
Qed.

Lemma late_label_failure_witness :
  fst (notebook Demo.lib
         (fresh (<["y_valid_prepared.npy"%string :=
                     NpyFile (NdArray [2; 3] (map Int64 [1; 1; 1; 0; 0; 0]%Z))]>
                  Demo.disk) [3]))
  = inl IndexError.
Proof.
  apply (late_label_failure Demo.lib _ Demo.X_train Demo.y_train Demo.X_valid
           (NdArray [2; 3] (map Int64 [1; 1; 1; 0; 0; 0]%Z)) 1 2 3 [] Demo.weights);
    try (split; reflexivity); try reflexivity; try (cbn; lia).
Defined.

(** X13. A validation input that [predict] rejects, for an empty batch, an
    empty time axis or another feature width than that of [X_train], ends
    the run at [predict] with the exception the library raises: the network
    has been built and trained, and no figure is made. *)
Theorem rejected_input_stops_at_predict L w X_train y_train X_valid y_valid
    features n t f history ws :
  loaded w "X_train_prepared.npy" X_train ->
  loaded w "y_train_prepared.npy" y_train ->
  loaded w "X_valid_prepared.npy" X_valid ->
  loaded w "y_valid_prepared.npy" y_valid ->
  shape_at X_train (-1) = inr features ->
  lib_fit L
    (Keras.Model_ (network features)
       (Some (Keras.RMSprop 0.005, "binary_crossentropy"%string))
       (lib_initializer L (network features)))
    X_train y_train 128 5 = inr (history, ws) ->
  nd_shape X_valid = [n; t; f] -> n = 0 \/ t = 0 \/ f <> features ->
  fst (notebook L w) = inl (lib_predict_error L X_valid) /\
  (exists evs,
     trace (snd (notebook L w)) =
       trace w ++ evs
       ++ [Event (KerasPredict X_valid) (Some (lib_predict_error L X_valid))] /\
     kinds evs = load_script ++ construct_script ++ [K_fit 128 5] /\
     Forall succeeded evs) /\
  figures (snd (notebook L w)) = figures w.
Proof.
  intros HXt Hyt HXv Hyv HF Hfit Hs Hbad.
  unfold notebook.
  erewrite bind_returned
    by (apply cell_load_spec; repeat (split; [eassumption|]); reflexivity).
  cbv beta iota.
  erewrite bind_returned
    by (apply cell_construct_spec; eexists;
        repeat (split; [eassumption || reflexivity|]); reflexivity).
  cbn [files entropy figures trace].
  erewrite bind_returned
    by (apply cell_train_spec; eexists;
        repeat (split; [eassumption || reflexivity|]); reflexivity).
  cbv beta iota. cbn [files entropy figures trace].
  assert (forall w1,
            cell_evaluate L
              (Keras.Model_ (Keras.m_layers (constructed L features))
                 (Keras.m_compiled (constructed L features)) ws) X_valid w1
            = (inl (lib_predict_error L X_valid),
               log (KerasPredict X_valid) (Some (lib_predict_error L X_valid))
                 (set_entropy
                    (drop (lib_seeds L (KerasPredict X_valid)) (entropy w1)) w1)))
    as Heval.
  { intros w1. unfold cell_evaluate, predict. rewrite run_keras_call.
    change (Keras.Model_ (Keras.m_layers (constructed L features))
              (Keras.m_compiled (constructed L features)) ws)
      with (trained features ws).
    rewrite (predict_rejects ws features X_valid n t f Hs Hbad). reflexivity. }
  rewrite (bind_inl _ _ _ _ _ (Heval _)).
  cbn [fst snd files entropy figures trace log set_entropy].
  split; [reflexivity|]. split; [|reflexivity].
  exists (load_events ++ construct_events X_train features
          ++ [ok (KerasFit X_train y_train 128 5 1)]).
  split; [rewrite <- !app_assoc; reflexivity|].
  split; [reflexivity|].
  unfold load_events, construct_events, construct_calls. cbn [app map].
  repeat constructor.
Qed.

Lemma rejected_input_stops_at_predict_witness :
  fst (notebook Demo.lib
         (fresh (<["X_valid_prepared.npy"%string := NpyFile (NdArray [2; 0; 1] [])]>
                  Demo.disk) [3]))
  = inl (ValueError "Invalid input shape").
Proof.
  apply (rejected_input_stops_at_predict Demo.lib _ Demo.X_train Demo.y_train
           (NdArray [2; 0; 1] []) Demo.y_valid 1 2 0 1 [] Demo.weights);
    try (split; reflexivity); try reflexivity.
  right. left. reflexivity.
Defined.
